(** * PeelJoy: the asset-search proxy of [server.js]

    [server.js] exists in two revisions that share their structure: an
    earlier one that proxies the IconScout API and a later one that proxies
    the Freepik API.  Both are embedded here, route by route.

    The program is JavaScript, so its data is untyped: query parameters,
    provider payloads and response bodies are all values of one type [Val].
    Numbers are doubles, kept as the rationals they equal and rounded
    after each operation; strings are the bytes of their UTF-8 encoding.

    A handler runs in a [World], the [downloadCounts] object together with
    the trace of what the process did (console lines, provider requests,
    writes of [downloads.json]), and may throw.  The provider and the
    environment are parameters.  What happens once at start-up (loading
    [downloads.json], listening) and the static pages are left out: a
    handler may start in any world. *)

From Stdlib Require Import QArith Ascii String.
From stdpp Require Import gmap strings list.

Local Open Scope string_scope.
Local Open Scope list_scope.
Local Open Scope Z_scope.

(** ** Numbers *)

(** A number is [NaN], an infinity or a finite double, kept as the
    rational it equals.  The sign of zero is not kept: the program never
    divides by a number, and [-0] prints, serializes and tests as [0]. *)
Inductive Number :=
| NaN
| Infinity (negative : bool)
| Fin (q : Q).

Definition Number_neg (n : Number) : Number :=
  match n with
  | NaN => NaN
  | Infinity s => Infinity (negb s)
  | Fin q => Fin (Qred (- q))
  end.

(** *** Rounding to a double (IEEE 754 binary64, ties to even) *)

(** [N / D] rounded to the nearest integer, ties to the even one, for
    [0 <= N] and [0 < D]. *)
Definition round_half_even (N D : Z) : Z :=
  let quo := N / D in
  match 2 * (N mod D) ?= D with
  | Lt => quo
  | Gt => quo + 1
  | Eq => if Z.even quo then quo else quo + 1
  end.

(** The [e] with [2^e <= a / b < 2^(e+1)], for [0 < a] and [0 < b]. *)
Definition binary_exponent (a b : Z) : Z :=
  let e := Z.log2 a - Z.log2 b in
  if (if 0 <=? e then a <? 2 ^ e * b else a * 2 ^ (- e) <? b)
  then e - 1 else e.

(** The double nearest to [a / b], for [0 < a] and [0 < b]: 53 significant
    bits, exponents from -1022 (below it the subnormal spacing [2^-1074]
    stays), and [Infinity] from [2^1024] on. *)
Definition round_positive (a b : Z) : Number :=
  let e := Z.max (binary_exponent a b) (-1022) in
  let shift := 52 - e in
  if 0 <=? shift
  then Fin (Qred (round_half_even (a * 2 ^ shift) b # Z.to_pos (2 ^ shift)))
  else
    let n := round_half_even a (b * 2 ^ (- shift)) * 2 ^ (- shift) in
    if 2 ^ 1024 <=? n then Infinity false else Fin (inject_Z n).

(** The Number value for a mathematical value. *)
Definition round_double (q : Q) : Number :=
  let r := Qred q in
  match Qnum r with
  | Z0 => Fin 0
  | Zpos a => round_positive (Zpos a) (Zpos (Qden r))
  | Zneg a => Number_neg (round_positive (Zpos a) (Zpos (Qden r)))
  end.

(** The Number value for an integer. *)
Definition Number_of_Z (z : Z) : Number := round_double (inject_Z z).

#[global] Arguments round_double : simpl never.
#[global] Arguments Number_of_Z : simpl never.

(** [a <= b] on numbers that are not [NaN]. *)
Definition Number_leb (a b : Number) : bool :=
  match a, b with
  | NaN, _ | _, NaN => false
  | Infinity true, _ => true
  | _, Infinity false => true
  | Infinity false, _ => false
  | _, Infinity true => false
  | Fin x, Fin y => Qle_bool x y
  end.

(** [Math.min(a, b)]: [NaN] as soon as one argument is. *)
Definition Math_min (a b : Number) : Number :=
  match a, b with
  | NaN, _ | _, NaN => NaN
  | _, _ => if Number_leb a b then a else b
  end.

(** Numeric [a + b]: the exact sum, rounded to a double. *)
Definition Number_add (a b : Number) : Number :=
  match a, b with
  | NaN, _ | _, NaN => NaN
  | Infinity s, Infinity t => if Bool.eqb s t then Infinity s else NaN
  | Infinity s, _ | _, Infinity s => Infinity s
  | Fin x, Fin y => round_double (x + y)
  end.

(** [a === b] on numbers. *)
Definition Number_eqb (a b : Number) : bool :=
  match a, b with
  | Fin x, Fin y => Qeq_bool x y
  | Infinity s, Infinity t => Bool.eqb s t
  | _, _ => false
  end.

(** *** StringToNumber

    The conversion applied by [Math.min] to a query-string value: the
    StringNumericLiteral grammar of ECMAScript, the value rounded to a
    double.  A string is the sequence of the bytes of its UTF-8 encoding;
    white space is the WhiteSpace and LineTerminator of ECMAScript. *)

(** The UTF-8 bytes of U+0009 to U+000D, U+0020, U+00A0, U+1680, U+2000 to
    U+200A, U+2028, U+2029, U+202F, U+205F, U+3000 and U+FEFF. *)
Definition white_space : list (list ascii) :=
  map (map ascii_of_nat)
      [[9]; [10]; [11]; [12]; [13]; [32]; [194; 160]; [225; 154; 128];
       [226; 128; 128]; [226; 128; 129]; [226; 128; 130]; [226; 128; 131];
       [226; 128; 132]; [226; 128; 133]; [226; 128; 134]; [226; 128; 135];
       [226; 128; 136]; [226; 128; 137]; [226; 128; 138];
       [226; 128; 168]; [226; 128; 169]; [226; 128; 175];
       [226; 129; 159]; [227; 128; 128]; [239; 187; 191]]%nat.

(** [s] without its prefix [prefix], if it has it. *)
Fixpoint strip_prefix (prefix s : list ascii) : option (list ascii) :=
  match prefix, s with
  | [], _ => Some s
  | c :: prefix', c' :: s' =>
      if bool_decide (c = c') then strip_prefix prefix' s' else None
  | _ :: _, [] => None
  end.

(** [s] without the first of the [spaces] it starts with, if any. *)
Fixpoint strip_space (spaces : list (list ascii)) (s : list ascii) : option (list ascii) :=
  match spaces with
  | [] => None
  | space :: others =>
      match strip_prefix space s with
      | Some rest => Some rest
      | None => strip_space others s
      end
  end.

Fixpoint drop_spaces (fuel : nat) (spaces : list (list ascii)) (s : list ascii) : list ascii :=
  match fuel with
  | O => s
  | S fuel' =>
      match strip_space spaces s with
      | Some rest => drop_spaces fuel' spaces rest
      | None => s
      end
  end.

(** Leading white space dropped; the fuel, the length, is never used up,
    as each white space takes a byte at least. *)
Definition drop_white_space (s : list ascii) : list ascii :=
  drop_spaces (length s) white_space s.

Definition drop_white_space_end (s : list ascii) : list ascii :=
  rev (drop_spaces (length s) (map (@rev ascii) white_space) (rev s)).

Definition trim (s : list ascii) : list ascii :=
  drop_white_space_end (drop_white_space s).

Definition digit_value (c : ascii) : option Z :=
  let n := Z.of_nat (nat_of_ascii c) in
  if (48 <=? n) && (n <=? 57) then Some (n - 48)
  else if (97 <=? n) && (n <=? 102) then Some (n - 87)
  else if (65 <=? n) && (n <=? 70) then Some (n - 55)
  else None.

Definition is_digit (radix : Z) (c : ascii) : bool :=
  match digit_value c with
  | Some d => d <? radix
  | None => false
  end.

(** Splits off the longest prefix of digits of the radix. *)
Fixpoint span_digits (radix : Z) (s : list ascii) : list ascii * list ascii :=
  match s with
  | c :: rest =>
      if is_digit radix c
      then let '(ds, tl) := span_digits radix rest in (c :: ds, tl)
      else ([], s)
  | [] => ([], [])
  end.

Definition digits_value (radix : Z) (ds : list ascii) : Z :=
  fold_left (fun acc c => acc * radix + default 0 (digit_value c)) ds 0.

(** [0x..], [0o..], [0b..]: the digits must fill the rest of the string. *)
Definition NonDecimalIntegerLiteral (radix : Z) (s : list ascii) : Number :=
  match span_digits radix s with
  | ((_ :: _) as ds, []) => Number_of_Z (digits_value radix ds)
  | _ => NaN
  end.

(** ExponentPart, optional: the exponent and what follows it. *)
Definition ExponentPart (s : list ascii) : option (Z * list ascii) :=
  match s with
  | ("e" | "E")%char :: rest =>
      let '(neg, rest') :=
        match rest with
        | "-"%char :: r => (true, r)
        | "+"%char :: r => (false, r)
        | _ => (false, rest)
        end in
      match span_digits 10 rest' with
      | ((_ :: _) as ds, tl) =>
          Some (if neg : bool then - digits_value 10 ds else digits_value 10 ds, tl)
      | _ => None
      end
  | _ => Some (0, s)
  end.

Definition chars_Infinity : list ascii :=
  list_ascii_of_string "Infinity".

(** StrUnsignedDecimalLiteral: [Infinity], [D.D?E?], [.DE?] or [DE?]. *)
Definition StrUnsignedDecimalLiteral (s : list ascii) : Number :=
  if bool_decide (s = chars_Infinity) then Infinity false
  else
    let '(int_ds, after_int) := span_digits 10 s in
    let '(frac_ds, after_frac) :=
      match after_int with
      | "."%char :: r => span_digits 10 r
      | _ => ([], after_int)
      end in
    match int_ds, frac_ds with
    | [], [] => NaN
    | _, _ =>
        match ExponentPart after_frac with
        | Some (e, []) =>
            let mantissa := digits_value 10 (int_ds ++ frac_ds) in
            round_double (inject_Z mantissa *
                          (10 # 1) ^ (e - Z.of_nat (length frac_ds)))
        | _ => NaN
        end
    end.

Definition StringToNumber (str : string) : Number :=
  match trim (list_ascii_of_string str) with
  | [] => Number_of_Z 0
  | "0"%char :: ("x" | "X")%char :: ds => NonDecimalIntegerLiteral 16 ds
  | "0"%char :: ("o" | "O")%char :: ds => NonDecimalIntegerLiteral 8 ds
  | "0"%char :: ("b" | "B")%char :: ds => NonDecimalIntegerLiteral 2 ds
  | "+"%char :: s => StrUnsignedDecimalLiteral s
  | "-"%char :: s => Number_neg (StrUnsignedDecimalLiteral s)
  | s => StrUnsignedDecimalLiteral s
  end.

(** ** Values *)

(** JavaScript values as the program meets them: what [JSON.parse] and the
    query-string parser produce, [undefined], and the native functions that
    a plain object inherits from [Object.prototype]. *)
#[warnings="-register-all"]
Inductive Val :=
| Undef
| Null
| Bool (b : bool)
| Num (n : Number)
| Str (s : string)
| Arr (elems : list Val)
| Obj (props : list (string * Val))
| Native (name : string).

Definition int (z : Z) : Val := Num (Number_of_Z z).

(** Truthiness, as [||], [!] and [? :] test it. *)
Definition truthy (v : Val) : bool :=
  match v with
  | Undef | Null => false
  | Bool b => b
  | Num NaN => false
  | Num (Infinity _) => true
  | Num (Fin q) => negb (Qeq_bool q 0)
  | Str s => negb (bool_decide (s = ""))
  | Arr _ | Obj _ | Native _ => true
  end.

Definition nullish (v : Val) : bool :=
  match v with
  | Undef | Null => true
  | _ => false
  end.

(** [a || b] when evaluating [b] cannot throw. *)
Definition or_val (a b : Val) : Val := if truthy a then a else b.

(** [a === b].  Arrays, objects and functions are compared by identity;
    the program only ever compares a value with a literal, which no
    object is identical to. *)
Definition strict_eq (a b : Val) : bool :=
  match a, b with
  | Undef, Undef | Null, Null => true
  | Bool x, Bool y => Bool.eqb x y
  | Num x, Num y => Number_eqb x y
  | Str x, Str y => bool_decide (x = y)
  | _, _ => false
  end.

(** The own property [k] of a property list. *)
Fixpoint own (props : list (string * Val)) (k : string) : option Val :=
  match props with
  | (k', v) :: rest => if bool_decide (k' = k) then Some v else own rest k
  | [] => None
  end.

(** Whether the conversion of a value to a string returns.  An object is
    converted by the [toString] it inherits unless an own property hides
    it; an array joins the strings of its elements. *)
Fixpoint printable (v : Val) : bool :=
  match v with
  | Obj props =>
      (fix hides (props : list (string * Val)) : bool :=
         match props with
         | (k, _) :: rest => negb (bool_decide (k = "toString")) && hides rest
         | [] => true
         end) props
  | Arr elems =>
      (fix all (l : list Val) : bool :=
         match l with
         | x :: rest => printable x && all rest
         | [] => true
         end) elems
  | _ => true
  end.

(** [v.k] for [v] neither [undefined] nor [null] and [k] one of the names
    the program reads as data ([data], [meta], [id], [title], [url], ...):
    none of them is inherited from the prototype of an object, an array, a
    string, a number or a boolean, so only own properties count.  A native
    function has its [name]. *)
Definition member (v : Val) (k : string) : Val :=
  match v with
  | Obj props => default Undef (own props k)
  | Native f => if bool_decide (k = "name") then Str f else Undef
  | _ => Undef
  end.

Fixpoint decimal_digits (fuel : nat) (n : Z) (acc : string) : string :=
  match fuel with
  | O => acc
  | S fuel' =>
      let acc' := String (ascii_of_nat (Z.to_nat (48 + n mod 10))) acc in
      if n <? 10 then acc' else decimal_digits fuel' (n / 10) acc'
  end.

(** The decimal digits of a natural number, as used for an array index. *)
Definition index_name (i : nat) : string :=
  decimal_digits (S i) (Z.of_nat i) "".

(** [v[i]] for [v] neither [undefined] nor [null]. *)
Definition index (v : Val) (i : nat) : Val :=
  match v with
  | Arr elems => default Undef (elems !! i)
  | Obj props => default Undef (own props (index_name i))
  | Str s =>
      match list_ascii_of_string s !! i with
      | Some c => Str (String c "")
      | None => Undef
      end
  | _ => Undef
  end.

(** Optional chaining: [v?.k] and [v?.[i]]. *)
Definition opt_member (v : Val) (k : string) : Val :=
  if nullish v then Undef else member v k.

Definition opt_index (v : Val) (i : nat) : Val :=
  if nullish v then Undef else index v i.

(** Prints integers in decimal, which is what [Number::toString] does for
    integers below 10^21; fractions print as numerator and denominator.
    Used to run the model on payloads whose numbers are integers. *)
Definition print_integer (q : Q) : string :=
  let r := Qred q in
  let digits (z : Z) := decimal_digits (S (Z.to_nat z)) z "" in
  (if Qnum r <? 0 then "-" else "") +:+ digits (Z.abs (Qnum r)) +:+
  (if bool_decide (Qden r = 1%positive) then ""
   else "/" +:+ digits (Z.pos (Qden r))).

Section Conversions.

(** [Number::toString] on finite numbers is left to the engine: it
    prints the shortest decimal that reads back as the same double. *)
Variable Number_toString : Q -> string.

(** The string of a value whose conversion does not throw (a [printable]
    value): what [String(v)] returns and what [v] contributes to a
    concatenation.  The values that the program concatenates or passes to
    [Math.min] are printable: query parameters (strings and arrays of
    strings), environment strings, and the counts and inherited functions
    it reads from [downloadCounts] (a [downloads.json] edited by hand to
    hold an object with an own [toString] is not covered).
    [String(item.id)], applied to a value of the provider's, is [String_]
    below, which throws on the others. *)
Fixpoint ToString (v : Val) : string :=
  match v with
  | Undef => "undefined"
  | Null => "null"
  | Bool true => "true"
  | Bool false => "false"
  | Num NaN => "NaN"
  | Num (Infinity false) => "Infinity"
  | Num (Infinity true) => "-Infinity"
  | Num (Fin q) => Number_toString q
  | Str s => s
  | Arr elems =>
      (fix join (l : list Val) : string :=
         match l with
         | [] => ""
         | x :: rest =>
             (match x with Undef | Null => "" | _ => ToString x end) +:+
             (match rest with [] => "" | _ :: _ => "," +:+ join rest end)
         end) elems
  | Obj _ => "[object Object]"
  | Native f => "function " +:+ f +:+ "() { [native code] }"
  end.

Definition ToPrimitive (v : Val) : Val :=
  match v with
  | Arr _ | Obj _ | Native _ => Str (ToString v)
  | _ => v
  end.

Definition ToNumber (v : Val) : Number :=
  match ToPrimitive v with
  | Undef => NaN
  | Null => Number_of_Z 0
  | Bool b => Number_of_Z (if b then 1 else 0)
  | Num n => n
  | Str s => StringToNumber s
  | _ => NaN
  end.

(** The binary [+]: concatenation as soon as one side is a string. *)
Definition plus (a b : Val) : Val :=
  match ToPrimitive a, ToPrimitive b with
  | Str x, y => Str (x +:+ ToString y)
  | x, Str y => Str (ToString x +:+ y)
  | x, y => Num (Number_add (ToNumber x) (ToNumber y))
  end.

End Conversions.

(** ** Errors, effects and the state of the process *)

(** What axios attaches to a rejection when the provider answered. *)
Record AxiosResponse := {
  response_status : Z;
  response_data : Val;
  response_headers : Val }.

(** A thrown [Error]: [error.response] is set by axios only, and only when
    the provider answered; [error.message] is always a string. *)
Record Error := {
  response : option AxiosResponse;
  message : string }.

Definition new_Error (msg : string) : Error :=
  {| response := None; message := msg |}.

Inductive Completion (A : Type) :=
| Return (a : A)
| Throw (error : Error).
Arguments Return {A} a.
Arguments Throw {A} error.

(** The configuration object passed to [axios(...)]. *)
Record AxiosRequest := {
  method : string;
  url : string;
  headers : list (string * Val);
  params : list (string * Val) }.

Inductive Event :=
| console_log (args : list Val)
| console_error (args : list Val)
| axios_call (config : AxiosRequest)
| fs_writeFileSync (file : string) (counts : gmap string Val).

(** The mutable state: the [downloadCounts] object and, in order, what the
    process has done to the outside. *)
Record World := {
  downloadCounts : gmap string Val;
  events : list Event }.

(** What [res.status(..).json(..)] sends. *)
Record Res := {
  status : Z;
  json : Val }.

Definition Eff (A : Type) : Type := World -> Completion A * World.

Definition ret {A} (a : A) : Eff A := fun w => (Return a, w).
Definition throw {A} (e : Error) : Eff A := fun w => (Throw e, w).
Definition bind {A B} (m : Eff A) (k : A -> Eff B) : Eff B :=
  fun w =>
    match m w with
    | (Return a, w') => k a w'
    | (Throw e, w') => (Throw e, w')
    end.
Definition try_catch {A} (body : Eff A) (handler : Error -> Eff A) : Eff A :=
  fun w =>
    match body w with
    | (Throw e, w') => handler e w'
    | completed => completed
    end.
Definition emit (e : Event) : Eff unit :=
  fun w => (Return tt, {| downloadCounts := downloadCounts w;
                          events := events w ++ [e] |}).
Definition lift {A} (c : Completion A) : Eff A := fun w => (c, w).

Declare Scope eff_scope.
Delimit Scope eff_scope with eff.
Notation "x <- m ;; k" := (bind m (fun x => k))
  (at level 100, m at next level, right associativity) : eff_scope.
Notation "m ;; k" := (bind m (fun _ => k))
  (at level 100, right associativity) : eff_scope.

(** [v.k], which throws a [TypeError] on [undefined] and [null] (the
    message is V8's). *)
Definition get (v : Val) (k : string) : Completion Val :=
  let TypeError (what : string) :=
    new_Error ("Cannot read properties of " +:+ what +:+
               " (reading '" +:+ k +:+ "')") in
  match v with
  | Undef => Throw (TypeError "undefined")
  | Null => Throw (TypeError "null")
  | _ => Return (member v k)
  end.

(** [const { k = dflt } = req.query]. *)
Definition destructure (query : list (string * Val)) (k : string) (dflt : Val) : Val :=
  match own query k with
  | None | Some Undef => dflt
  | Some v => v
  end.

(** [error.response?.status || 500] *)
Definition status_or_500 (error : Error) : Z :=
  match response error with
  | Some r => if response_status r =? 0 then 500 else response_status r
  | None => 500
  end.

(** [error.response?.data?.message || error.message] *)
Definition message_of (error : Error) : Val :=
  or_val (opt_member (from_option response_data Undef (response error)) "message")
     (Str (message error)).

(** The status and the body that the [catch] block of a search route
    hands to [res.status(..).json(..)]. *)
Definition failure_response (text : string) (error : Error) : Res :=
  {| status := status_or_500 error;
     json := Obj [("success", Bool false);
                  ("error", Str text);
                  ("message", message_of error);
                  ("data", Arr [])] |}.

(** [res.status(code).json(body)]: a status outside 100..999 is refused
    with a [RangeError], by [res.status] in Express 5 and by Node when the
    head is written in Express 4 (the message is Node's; Express 5 words it
    at greater length). *)
Definition res_status_json (res : Res) : Completion Res :=
  if (100 <=? status res) && (status res <=? 999) then Return res
  else Throw (new_Error ("Invalid status code: " +:+
                         print_integer (inject_Z (status res)))).

(** The [catch] block shared, up to the text of [error], by every search
    route of both revisions.  It is not itself inside a [try]: when the
    status is refused the handler throws without having sent this body
    (what Express then does with the failed handler is outside the model). *)
Definition respond_failure (text : string) (error : Error) : Completion Res :=
  res_status_json (failure_response text error).

(** ** Pure exceptions *)

Definition and_then {A B} (c : Completion A) (k : A -> Completion B) : Completion B :=
  match c with
  | Return a => k a
  | Throw e => Throw e
  end.

Notation "'let*' x ':=' c 'in' k" := (and_then c (fun x => k))
  (at level 10, x name, c at level 200, k at level 200).

(** [Array.prototype.find]: the first element the callback accepts, else
    [undefined]; the callback is not run past that element. *)
Fixpoint find (callback : Val -> Completion bool) (l : list Val) : Completion Val :=
  match l with
  | [] => Return Undef
  | t :: rest =>
      let* found := callback t in
      if found : bool then Return t else find callback rest
  end.

(** [Array.prototype.map] with a callback that may throw. *)
Fixpoint map_array {A} (callback : Val -> Completion A) (l : list Val) : Completion (list A) :=
  match l with
  | [] => Return []
  | item :: rest =>
      let* a := callback item in
      let* rest' := map_array callback rest in
      Return (a :: rest')
  end.

(** ** The shape sent to the front end *)

Module Asset.
Record urls_t := {
  png_128 : Val;
  png_64 : Val;
  thumb : Val }.

Record t := {
  id : Val;
  uuid : Val;
  name : Val;
  urls : urls_t;
  preview : Val }.

(** The object literal of the two transforms. *)
Definition to_val (a : t) : Val :=
  Obj [("id", id a);
       ("uuid", uuid a);
       ("name", name a);
       ("urls", Obj [("png_128", png_128 (urls a));
                     ("png_64", png_64 (urls a));
                     ("thumb", thumb (urls a))]);
       ("preview", preview a)].
End Asset.

(** ** The download counter's object *)

(** What a plain object ([{}] or the result of [JSON.parse]) inherits from
    [Object.prototype]: the native methods, the [constructor] and the
    [__proto__] accessor, whose getter returns [Object.prototype] itself,
    an object without enumerable properties. *)
Definition Object_prototype (k : string) : option Val :=
  if bool_decide (k = "constructor") then Some (Native "Object")
  else if bool_decide (k = "__proto__") then Some (Obj [])
  else if bool_decide (k ∈ ["toString"; "toLocaleString"; "valueOf";
                             "hasOwnProperty"; "isPrototypeOf";
                             "propertyIsEnumerable";
                             "__defineGetter__"; "__defineSetter__";
                             "__lookupGetter__"; "__lookupSetter__"])
  then Some (Native k)
  else None.

(** [counts[k]]: own properties first, then the prototype. *)
Definition read (counts : gmap string Val) (k : string) : Val :=
  match counts !! k with
  | Some v => v
  | None => default Undef (Object_prototype k)
  end.

(** [counts[k] = v] for a primitive [v] (the program assigns the result of
    a [+], a number or a string).  An own property is overwritten; without
    one, [__proto__] reaches the inherited setter, which ignores a primitive;
    any other key becomes an own property. *)
Definition assign (counts : gmap string Val) (k : string) (v : Val) : gmap string Val :=
  match counts !! k with
  | None => if bool_decide (k = "__proto__") then counts else <[k := v]> counts
  | Some _ => <[k := v]> counts
  end.

(** The process right after it started without a [downloads.json]. *)
Definition fresh : World :=
  {| downloadCounts := ∅; events := [] |}.

Inductive Provider := IconScout | Freepik.

Inductive Route :=
| api_icons
| api_3d_icons
| api_illustrations
| api_lottie
| api_search.

Section Server.

Variable Number_toString : Q -> string.

(** [process.env] *)
Variable process_env : string -> option string.

(** The provider as [axios] shows it: a request resolves to
    [response.data] or is rejected with an error.  The same function
    answers every call: the provider does not change. *)
Variable axios : AxiosRequest -> Completion Val.

Local Open Scope eff_scope.

Definition env (name : string) : Val :=
  from_option Str Undef (process_env name).

Definition await_axios (config : AxiosRequest) : Eff Val :=
  emit (axios_call config) ;; lift (axios config).

(** *** The download counter (identical in both revisions) *)

(** [saveDownloadCounts]: outside production the counts are written to
    [downloads.json]; a failure of the write is swallowed. *)
Definition saveDownloadCounts : Eff unit :=
  fun w =>
    if negb (strict_eq (env "NODE_ENV") (Str "production"))
    then emit (fs_writeFileSync "downloads.json" (downloadCounts w)) w
    else ret tt w.

(** [app.get('/api/downloads/:assetId')] *)
Definition GET_api_downloads_assetId (assetId : string) : Eff Res :=
  fun w =>
    ret {| status := 200;
           json := Obj [("success", Bool true);
                        ("downloads",
                         or_val (read (downloadCounts w) assetId) (int 0))] |} w.

(** [app.post('/api/downloads/:assetId')] *)
Definition POST_api_downloads_assetId (assetId : string) : Eff Res :=
  fun w =>
    let counts :=
      assign (downloadCounts w) assetId
             (plus Number_toString
                   (or_val (read (downloadCounts w) assetId) (int 0)) (int 1)) in
    (saveDownloadCounts ;;
     ret {| status := 200;
            json := Obj [("success", Bool true);
                         ("downloads", read counts assetId)] |})
      {| downloadCounts := counts; events := events w |}.

(** *** The IconScout revision *)

Definition ICONSCOUT_API_BASE : string := "https://api.iconscout.com/v3".
Definition CLIENT_ID : Val := env "ICONSCOUT_CLIENT_ID".

Definition fetchFromIconScout (endpoint : string) (params : list (string * Val)) : Eff Val :=
  try_catch
    (if negb (truthy CLIENT_ID)
     then throw (new_Error "ICONSCOUT_CLIENT_ID environment variable is not set")
     else
       emit (console_log [Str ("Fetching: " +:+ ICONSCOUT_API_BASE +:+ endpoint);
                          Obj [("params", Obj params)]]) ;;
       await_axios
         {| method := "GET";
            url := ICONSCOUT_API_BASE +:+ endpoint;
            headers := [("Client-ID", CLIENT_ID);
                        ("client-id", CLIENT_ID);
                        ("Authorization",
                         Str ("Bearer " +:+ ToString Number_toString CLIENT_ID));
                        ("X-Client-ID", CLIENT_ID)];
            params := params |})
    (fun error =>
       emit (console_error
               [Str "IconScout API error:";
                or_val (from_option response_data Undef (response error))
                   (Str (message error))]) ;;
       emit (console_error
               [Str "Response headers:";
                from_option response_headers Undef (response error)]) ;;
       throw error).

(** The [try] block of the five IconScout routes after the query is
    destructured: they differ in the [asset] they pass only. *)
Definition iconscout_search (q asset page per_page : Val) : Eff Res :=
  data <- fetchFromIconScout "/search"
            [("query", q); ("asset", asset); ("page", page);
             ("per_page", per_page); ("price", Str "free")] ;;
  response <- lift (get data "response") ;;
  let items := opt_member response "items" in
  ret {| status := 200;
         json := Obj [("success", Bool true);
                      ("data", or_val (opt_member items "data") (Arr []));
                      ("pagination", or_val (opt_member items "pagination") (Obj []))] |}.

Definition iconscout_GET_api_icons (query : list (string * Val)) : Eff Res :=
  try_catch
    (let q := destructure query "q" (Str "popular") in
     let page := destructure query "page" (int 1) in
     let per_page := destructure query "per_page" (int 20) in
     iconscout_search q (Str "icon") page per_page)
    (fun error => lift (respond_failure "Failed to fetch icons" error)).

Definition iconscout_GET_api_3d_icons (query : list (string * Val)) : Eff Res :=
  try_catch
    (let q := destructure query "q" (Str "popular") in
     let page := destructure query "page" (int 1) in
     let per_page := destructure query "per_page" (int 20) in
     iconscout_search q (Str "3d") page per_page)
    (fun error => lift (respond_failure "Failed to fetch 3D icons" error)).

Definition iconscout_GET_api_illustrations (query : list (string * Val)) : Eff Res :=
  try_catch
    (let q := destructure query "q" (Str "popular") in
     let page := destructure query "page" (int 1) in
     let per_page := destructure query "per_page" (int 20) in
     iconscout_search q (Str "illustration") page per_page)
    (fun error => lift (respond_failure "Failed to fetch illustrations" error)).

Definition iconscout_GET_api_lottie (query : list (string * Val)) : Eff Res :=
  try_catch
    (let q := destructure query "q" (Str "popular") in
     let page := destructure query "page" (int 1) in
     let per_page := destructure query "per_page" (int 20) in
     iconscout_search q (Str "lottie") page per_page)
    (fun error => lift (respond_failure "Failed to fetch Lottie animations" error)).

Definition iconscout_GET_api_search (query : list (string * Val)) : Eff Res :=
  try_catch
    (let q := destructure query "q" (Str "popular") in
     let page := destructure query "page" (int 1) in
     let per_page := destructure query "per_page" (int 20) in
     let asset := destructure query "asset" (Str "icon") in
     iconscout_search q asset page per_page)
    (fun error => lift (respond_failure "Failed to fetch assets" error)).

(** *** The Freepik revision *)

Definition FREEPIK_API_BASE : string := "https://api.freepik.com/v1".
Definition FREEPIK_API_KEY : Val := env "FREEPIK_API_KEY".

Definition fetchFromFreepik (endpoint : string) (params : list (string * Val)) : Eff Val :=
  try_catch
    (if negb (truthy FREEPIK_API_KEY)
     then throw (new_Error "FREEPIK_API_KEY environment variable is not set")
     else
       emit (console_log [Str ("Fetching: " +:+ FREEPIK_API_BASE +:+ endpoint);
                          Obj [("params", Obj params)]]) ;;
       await_axios
         {| method := "GET";
            url := FREEPIK_API_BASE +:+ endpoint;
            headers := [("x-freepik-api-key", FREEPIK_API_KEY);
                        ("Accept-Language", Str "en-US")];
            params := params |})
    (fun error =>
       emit (console_error
               [Str "Freepik API error:";
                or_val (from_option response_data Undef (response error))
                   (Str (message error))]) ;;
       emit (console_error
               [Str "Response headers:";
                from_option response_headers Undef (response error)]) ;;
       throw error).

(** [String(v)]: an object is converted by its [toString], and when an
    own property hides the inherited method with something that cannot be
    called (no value of [JSON.parse] can), neither it nor [valueOf] gives a
    primitive and the conversion throws a [TypeError] (the message is V8's). *)
Definition String_ (v : Val) : Completion string :=
  if printable v then Return (ToString Number_toString v)
  else Throw (new_Error "Cannot convert object to primitive value").

(** [item.thumbnails?.find(callback)?.url], [thumbnails] being the value
    of [item.thumbnails]: calling [find] on anything but an array (or
    [undefined], [null]) is a [TypeError]. *)
Definition find_url (thumbnails : Val) (callback : Val -> Completion bool) : Completion Val :=
  match thumbnails with
  | Undef | Null => Return Undef
  | Arr l =>
      let* t := find callback l in
      Return (opt_member t "url")
  | _ => Throw (new_Error "item.thumbnails?.find is not a function")
  end.

(** [items.map(callback)] *)
Definition items_map {A} (items : Val) (callback : Val -> Completion A) : Completion (list A) :=
  match items with
  | Arr l => map_array callback l
  | _ => Throw (new_Error "items.map is not a function")
  end.

(** [t => t.size === n] *)
Definition size_is (n : Z) (t : Val) : Completion bool :=
  let* size := get t "size" in
  Return (strict_eq size (int n)).

(** [t => t.key === 'small'] *)
Definition key_is_small (t : Val) : Completion bool :=
  let* key := get t "key" in
  Return (strict_eq key (Str "small")).

Definition icon_item (item : Val) : Completion Asset.t :=
  let* id := get item "id" in
  let* uuid := String_ id in
  let thumbnails := member item "thumbnails" in
  let first_url := opt_member (opt_index thumbnails 0) "url" in
  let* sized_128 := find_url thumbnails (size_is 128) in
  let* sized_64 := find_url thumbnails (size_is 64) in
  Return
    {| Asset.id := id;
       Asset.uuid := Str uuid;
       Asset.name := or_val (or_val (member item "description") (member item "name"))
                        (Str "Untitled Icon");
       Asset.urls := {| Asset.png_128 := or_val sized_128 first_url;
                        Asset.png_64 := or_val sized_64 first_url;
                        Asset.thumb := first_url |};
       Asset.preview := first_url |}.

Definition transformIconResponse (freepikData : Val) : Completion (list Asset.t) :=
  let* data := get freepikData "data" in
  let items := or_val data (Arr []) in
  items_map items icon_item.

(** [a || b] where evaluating [b] may throw. *)
Definition or_else (a : Val) (b : Completion Val) : Completion Val :=
  if truthy a then Return a else b.

Definition resource_item (item : Val) : Completion Asset.t :=
  let* id := get item "id" in
  let* uuid := String_ id in
  let thumbnails := member item "thumbnails" in
  let source_url := opt_member (opt_member (member item "image") "source") "url" in
  let* png_128 := or_else source_url (find_url thumbnails key_is_small) in
  let* png_64 := or_else source_url (find_url thumbnails key_is_small) in
  Return
    {| Asset.id := id;
       Asset.uuid := Str uuid;
       Asset.name := or_val (or_val (member item "title") (member item "filename"))
                        (Str "Untitled");
       Asset.urls := {| Asset.png_128 := png_128;
                        Asset.png_64 := png_64;
                        Asset.thumb :=
                          or_val source_url
                                 (opt_member (opt_index thumbnails 0) "url") |};
       Asset.preview := source_url |}.

Definition transformResourceResponse (freepikData : Val) : Completion (list Asset.t) :=
  let* data := get freepikData "data" in
  let items := or_val data (Arr []) in
  items_map items resource_item.

(** [Math.min(per_page, 100)] *)
Definition min_100 (per_page : Val) : Val :=
  Num (Math_min (ToNumber Number_toString per_page) (Number_of_Z 100)).

(** [res.json({ success: true, data: .., pagination: data.meta || {} })] *)
Definition respond_success (assets : list Asset.t) (data : Val) : Eff Res :=
  meta <- lift (get data "meta") ;;
  ret {| status := 200;
         json := Obj [("success", Bool true);
                      ("data", Arr (map Asset.to_val assets));
                      ("pagination", or_val meta (Obj []))] |}.

Definition freepik_GET_api_icons (query : list (string * Val)) : Eff Res :=
  try_catch
    (let q := destructure query "q" (Str "popular") in
     let page := destructure query "page" (int 1) in
     let per_page := destructure query "per_page" (int 20) in
     data <- fetchFromFreepik "/icons"
               [("term", q);
                ("page", page);
                ("per_page", min_100 per_page);
                ("order", Str "relevance");
                ("filters[license][freemium]", int 1)] ;;
     assets <- lift (transformIconResponse data) ;;
     respond_success assets data)
    (fun error => lift (respond_failure "Failed to fetch icons" error)).

Definition freepik_GET_api_3d_icons (query : list (string * Val)) : Eff Res :=
  try_catch
    (let q := destructure query "q" (Str "popular") in
     let page := destructure query "page" (int 1) in
     let per_page := destructure query "per_page" (int 20) in
     data <- fetchFromFreepik "/resources"
               [("term", plus Number_toString q (Str " 3d"));
                ("page", page);
                ("limit", min_100 per_page);
                ("order", Str "relevance");
                ("filters[content_type][vector]", int 1);
                ("filters[vector][style]", Str "3d");
                ("filters[license][freemium]", int 1)] ;;
     assets <- lift (transformResourceResponse data) ;;
     respond_success assets data)
    (fun error => lift (respond_failure "Failed to fetch 3D assets" error)).

Definition freepik_GET_api_illustrations (query : list (string * Val)) : Eff Res :=
  try_catch
    (let q := destructure query "q" (Str "popular") in
     let page := destructure query "page" (int 1) in
     let per_page := destructure query "per_page" (int 20) in
     data <- fetchFromFreepik "/resources"
               [("term", q);
                ("page", page);
                ("limit", min_100 per_page);
                ("order", Str "relevance");
                ("filters[content_type][vector]", int 1);
                ("filters[license][freemium]", int 1)] ;;
     assets <- lift (transformResourceResponse data) ;;
     respond_success assets data)
    (fun error => lift (respond_failure "Failed to fetch illustrations" error)).

Definition lottie_note : string :=
  "Freepik does not have native Lottie animations. Showing animated/motion vectors instead.".

Definition freepik_GET_api_lottie (query : list (string * Val)) : Eff Res :=
  try_catch
    (let q := destructure query "q" (Str "popular") in
     let page := destructure query "page" (int 1) in
     let per_page := destructure query "per_page" (int 20) in
     data <- fetchFromFreepik "/resources"
               [("term", plus Number_toString q (Str " animation motion"));
                ("page", page);
                ("limit", min_100 per_page);
                ("order", Str "relevance");
                ("filters[content_type][vector]", int 1);
                ("filters[license][freemium]", int 1)] ;;
     assets <- lift (transformResourceResponse data) ;;
     meta <- lift (get data "meta") ;;
     ret {| status := 200;
            json := Obj [("success", Bool true);
                         ("data", Arr (map Asset.to_val assets));
                         ("pagination", or_val meta (Obj []));
                         ("note", Str lottie_note)] |})
    (fun error => lift (respond_failure "Failed to fetch animations" error)).

(** The [filters] object of the universal search. *)
Definition search_filters (asset : Val) : list (string * Val) :=
  if strict_eq asset (Str "3d")
  then [("filters[content_type][vector]", int 1);
        ("filters[vector][style]", Str "3d")]
  else if strict_eq asset (Str "illustration") || strict_eq asset (Str "vector")
  then [("filters[content_type][vector]", int 1)]
  else if strict_eq asset (Str "photo")
  then [("filters[content_type][photo]", int 1)]
  else [].

Definition freepik_GET_api_search (query : list (string * Val)) : Eff Res :=
  try_catch
    (let q := destructure query "q" (Str "popular") in
     let page := destructure query "page" (int 1) in
     let per_page := destructure query "per_page" (int 20) in
     let asset := destructure query "asset" (Str "icon") in
     if strict_eq asset (Str "icon")
     then
       data <- fetchFromFreepik "/icons"
                 [("term", q);
                  ("page", page);
                  ("per_page", min_100 per_page);
                  ("order", Str "relevance");
                  ("filters[license][freemium]", int 1)] ;;
       transformedData <- lift (transformIconResponse data) ;;
       respond_success transformedData data
     else
       let filters := search_filters asset in
       data <- fetchFromFreepik "/resources"
                 ([("term", q);
                   ("page", page);
                   ("limit", min_100 per_page);
                   ("order", Str "relevance");
                   ("filters[license][freemium]", int 1)] ++ filters) ;;
       transformedData <- lift (transformResourceResponse data) ;;
       respond_success transformedData data)
    (fun error => lift (respond_failure "Failed to fetch assets" error)).

(** *** The search routes of both revisions *)

Definition search_route (p : Provider) (r : Route) : list (string * Val) -> Eff Res :=
  match p, r with
  | IconScout, api_icons => iconscout_GET_api_icons
  | IconScout, api_3d_icons => iconscout_GET_api_3d_icons
  | IconScout, api_illustrations => iconscout_GET_api_illustrations
  | IconScout, api_lottie => iconscout_GET_api_lottie
  | IconScout, api_search => iconscout_GET_api_search
  | Freepik, api_icons => freepik_GET_api_icons
  | Freepik, api_3d_icons => freepik_GET_api_3d_icons
  | Freepik, api_illustrations => freepik_GET_api_illustrations
  | Freepik, api_lottie => freepik_GET_api_lottie
  | Freepik, api_search => freepik_GET_api_search
  end.

(** ** What the properties speak about *)

(** The credential each revision reads from the environment. *)
Definition credential_name (p : Provider) : string :=
  match p with
  | IconScout => "ICONSCOUT_CLIENT_ID"
  | Freepik => "FREEPIK_API_KEY"
  end.

Definition configured (p : Provider) : Prop :=
  truthy (env (credential_name p)) = true.

(** The requests that reached the provider, oldest first. *)
Definition requests (evs : list Event) : list AxiosRequest :=
  omap (fun ev => match ev with axios_call config => Some config | _ => None end) evs.


(** Running [handler] in [w] sends exactly one request to the provider,
    and that request satisfies [P]. *)
Definition sends_one (handler : Eff Res) (w : World) (P : AxiosRequest -> Prop) : Prop :=
  exists config,
    requests (events (snd (handler w))) = requests (events w) ++ [config] /\ P config.

(** A field of the JSON body of a response. *)
Definition field (res : Res) (k : string) : option Val :=
  match json res with
  | Obj props => own props k
  | _ => None
  end.

(** The [id]s of the assets of a response, in order. *)
Definition asset_ids (res : Res) : list Val :=
  match field res "data" with
  | Some (Arr assets) => map (fun a => member a "id") assets
  | _ => []
  end.

(** The routes that approximate a kind the provider has no category for:
    Freepik's [/api/lottie] only ("Freepik doesn't have native Lottie").
    IconScout's [/api/lottie] asks for the provider's own [lottie]
    assets. *)
Definition no_native_category (p : Provider) (r : Route) : bool :=
  match p, r with
  | Freepik, api_lottie => true
  | _, _ => false
  end.

(** *** The parts of a provider item, as total functions *)

Definition thumbnails_of (item : Val) : list Val :=
  match member item "thumbnails" with
  | Arr l => l
  | _ => []
  end.

(** The URL of the first thumbnail whose property [tag] is [v]. *)
Definition tagged_url (tag : string) (v : Val) (item : Val) : Val :=
  match List.find (fun t => strict_eq (member t tag) v) (thumbnails_of item) with
  | Some t => member t "url"
  | None => Undef
  end.

(** [item.thumbnails?.[0]?.url] *)
Definition first_thumbnail_url (item : Val) : Val :=
  opt_member (opt_index (member item "thumbnails") 0) "url".

(** [item.image?.source?.url], the full-resolution image. *)
Definition image_url (item : Val) : Val :=
  opt_member (opt_member (member item "image") "source") "url".

(** An item on which neither transform throws: not [undefined] or
    [null], with an [id] that [String] converts and with thumbnails, if any,
    in an array without [null]s. *)
Definition well_formed (item : Val) : bool :=
  negb (nullish item) &&
  printable (member item "id") &&
  match member item "thumbnails" with
  | Undef | Null => true
  | Arr l => forallb (fun t => negb (nullish t)) l
  | _ => false
  end.

(** The order of preference of the specification, for the thumbnail of
    [size] pixels: the thumbnail tagged with that size, else the first
    thumbnail, else the full-resolution image. *)
Definition spec_thumbnail_url (size : Z) (item : Val) : Val :=
  or_val (or_val (tagged_url "size" (int size) item) (first_thumbnail_url item))
     (image_url item).

(** The display name of the specification: title, then filename, then
    ["Untitled"]. *)
Definition spec_display_name (item : Val) : Val :=
  or_val (or_val (member item "title") (member item "filename")) (Str "Untitled").

(** [w] after the process did [evs]. *)
Definition after (w : World) (evs : list Event) : World :=
  {| downloadCounts := downloadCounts w; events := events w ++ evs |}.

(** What [fetchFromFreepik] and [fetchFromIconScout] log when they
    rethrow [error]. *)
Definition error_log (label : string) (error : Error) : list Event :=
  [console_error [Str label;
                  or_val (from_option response_data Undef (response error))
                     (Str (message error))];
   console_error [Str "Response headers:";
                  from_option response_headers Undef (response error)]].

Definition freepik_config (endpoint : string) (ps : list (string * Val)) : AxiosRequest :=
  {| method := "GET";
     url := FREEPIK_API_BASE +:+ endpoint;
     headers := [("x-freepik-api-key", FREEPIK_API_KEY);
                 ("Accept-Language", Str "en-US")];
     params := ps |}.

Definition iconscout_config (endpoint : string) (ps : list (string * Val)) : AxiosRequest :=
  {| method := "GET";
     url := ICONSCOUT_API_BASE +:+ endpoint;
     headers := [("Client-ID", CLIENT_ID);
                 ("client-id", CLIENT_ID);
                 ("Authorization", Str ("Bearer " +:+ ToString Number_toString CLIENT_ID));
                 ("X-Client-ID", CLIENT_ID)];
     params := ps |}.

(** The items of a Freepik payload: [freepikData.data || []]. *)
Definition items_of (freepikData : Val) : list Val :=
  match or_val (member freepikData "data") (Arr []) with
  | Arr l => l
  | _ => []
  end.

(** The callbacks [t => t.size === n] and [t => t.key === 'small'] test a
    tag of the thumbnail. *)
Definition tag_is (tag : string) (v : Val) (t : Val) : Completion bool :=
  let* x := get t tag in
  Return (strict_eq x v).

(** Computations that only compute: they leave the world as it is. *)
Definition pure_as {A} (m : Eff A) (c : Completion A) : Prop :=
  forall w, m w = (c, w).

(** What a route answers when its [try] block ends in [c]. *)
Definition settle (text : string) (c : Completion Res) : Completion Res :=
  match c with
  | Return res => Return res
  | Throw error => respond_failure text error
  end.

(** A computation that throws, if it does, an error of the program's own:
    one without the [response] that axios attaches. *)
Definition own_error {A} (c : Completion A) : Prop :=
  match c with
  | Return _ => True
  | Throw error => response error = None
  end.

(** *** The listing of all counts *)

(** What [GET /api/downloads] sends: [downloads] is the [downloadCounts]
    object itself, of which JSON shows the own properties (their order is
    not represented). *)
Record Listing := {
  listing_status : Z;
  listing_success : bool;
  listing_downloads : gmap string Val }.

(** [app.get('/api/downloads')] *)
Definition GET_api_downloads : Eff Listing :=
  fun w =>
    ret {| listing_status := 200;
           listing_success := true;
           listing_downloads := downloadCounts w |} w.

(** *** What the further properties speak about *)

(** The asset kind a route asks for: fixed by the dedicated routes, read
    from the query ([asset = 'icon'] by default) by [/api/search]. *)
Definition asset_of (r : Route) (query : list (string * Val)) : Val :=
  match r with
  | api_icons => Str "icon"
  | api_3d_icons => Str "3d"
  | api_illustrations => Str "illustration"
  | api_lottie => Str "lottie"
  | api_search => destructure query "asset" (Str "icon")
  end.

(** The transform a Freepik route applies to the payload. *)
Definition freepik_transform (r : Route) (query : list (string * Val))
  : Val -> Completion (list Asset.t) :=
  if strict_eq (asset_of r query) (Str "icon")
  then transformIconResponse
  else transformResourceResponse.

(** The endpoint a route calls. *)
Definition endpoint_of (p : Provider) (r : Route) (query : list (string * Val)) : string :=
  match p with
  | IconScout => "/search"
  | Freepik =>
      if strict_eq (asset_of r query) (Str "icon") then "/icons" else "/resources"
  end.

(** The items of a payload as a route reads them: [data.response?.items?.data]
    in the IconScout revision, [freepikData.data] in the Freepik one. *)
Definition payload_items (p : Provider) (data : Val) : Val :=
  match p with
  | IconScout => opt_member (opt_member (member data "response") "items") "data"
  | Freepik => member data "data"
  end.

(** A Freepik payload on which the transforms do not throw: an object
    whose [data], if any, is an array of well-formed items. *)
Definition payload_ok (freepikData : Val) : bool :=
  negb (nullish freepikData) &&
  match or_val (member freepikData "data") (Arr []) with
  | Arr l => forallb well_formed l
  | _ => false
  end.

Definition is_write (ev : Event) : bool :=
  match ev with
  | fs_writeFileSync _ _ => true
  | _ => false
  end.

(** The counter holds counts: every own property is a non-negative
    integer, as a double ([Infinity] once the integer is out of range). *)
Definition holds_counts (counts : gmap string Val) : Prop :=
  forall k v, counts !! k = Some v -> exists n, 0 <= n /\ v = int n.

(** [n] increments of [assetId] in a row. *)
Definition increments (n : nat) (assetId : string) (w : World) : World :=
  Nat.iter n (fun w => snd (POST_api_downloads_assetId assetId w)) w.

(** The base URL of a revision's provider, and the headers in which it
    sends the credential as it is. *)
Definition api_base (p : Provider) : string :=
  match p with
  | IconScout => ICONSCOUT_API_BASE
  | Freepik => FREEPIK_API_BASE
  end.

Definition credential_headers (p : Provider) : list string :=
  match p with
  | IconScout => ["Client-ID"; "client-id"; "X-Client-ID"]
  | Freepik => ["x-freepik-api-key"]
  end.

(** *** Sample inputs *)

(** An environment with both credentials, and one with none. *)
Definition with_credentials (name : string) : option string :=
  if bool_decide (name ∈ ["ICONSCOUT_CLIENT_ID"; "FREEPIK_API_KEY"])
  then Some "secret" else None.

Definition without_credentials (name : string) : option string := None.

(** A resource with a full-resolution image and a small thumbnail, and an
    icon that has a full-resolution image only. *)
Definition sample_resource : Val :=
  Obj [("id", int 7);
       ("title", Str "Sunrise");
       ("image", Obj [("source", Obj [("url", Str "full.jpg")])]);
       ("thumbnails", Arr [Obj [("key", Str "small"); ("size", int 128);
                                ("url", Str "small.jpg")]])].

Definition sample_icon : Val :=
  Obj [("id", int 9);
       ("title", Str "Home");
       ("description", Str "A house");
       ("image", Obj [("source", Obj [("url", Str "home.png")])])].

Definition sample_payload : Val :=
  Obj [("data", Arr [sample_resource; sample_icon]);
       ("meta", Obj [("total", int 2)])].

(** A provider that answers every request with the sample payload, and
    one that answers every request with 404. *)
Definition provider_up (config : AxiosRequest) : Completion Val :=
  Return sample_payload.

Definition not_found : Error :=
  {| response := Some {| response_status := 404;
                         response_data := Obj [("message", Str "Not found")];
                         response_headers := Obj [] |};
     message := "Request failed with status code 404" |}.

Definition provider_down (config : AxiosRequest) : Completion Val :=
  Throw not_found.

(** An environment whose credentials are set to the empty string. *)
Definition empty_credentials (name : string) : option string := Some "".

(** An icon with two thumbnails, a payload with a [null] among its items,
    a payload as IconScout sends it, and providers answering no body, an
    empty object and these payloads. *)
Definition thumbnailed_icon : Val :=
  Obj [("id", int 3);
       ("name", Str "bell");
       ("thumbnails", Arr [Obj [("size", int 64); ("url", Str "bell-64.png")];
                           Obj [("size", int 128); ("url", Str "bell-128.png")]])].

Definition broken_payload : Val :=
  Obj [("data", Arr [sample_resource; Null])].

Definition iconscout_payload : Val :=
  Obj [("response",
        Obj [("items",
              Obj [("data", Arr [Obj [("id", int 11)]; Obj [("id", int 12)]]);
                   ("pagination", Obj [("current_page", int 1)])])])].

Definition provider_silent (config : AxiosRequest) : Completion Val :=
  Return Null.

Definition provider_empty (config : AxiosRequest) : Completion Val :=
  Return (Obj []).

Definition provider_broken (config : AxiosRequest) : Completion Val :=
  Return broken_payload.

Definition provider_iconscout (config : AxiosRequest) : Completion Val :=
  Return iconscout_payload.

(** A failure with a status that is no HTTP status, a failure whose error
    has no message, and the providers that fail with them. *)
Definition odd_status : Error :=
  {| response := Some {| response_status := 42;
                         response_data := Obj [];
                         response_headers := Obj [] |};
     message := "Request failed with status code 42" |}.




(** An item whose [id] hides [toString] with a number. *)
Definition unprintable_item : Val :=
  Obj [("id", Obj [("toString", int 1)]); ("title", Str "Dusk")].

(** ** Properties *)

(** *** Numbers *)

Lemma Qred_inject_Z z : Qred (inject_Z z) = inject_Z z.
Proof.
  unfold Qred, inject_Z.
  pose proof (Z.ggcd_correct_divisors z 1) as Hd.
  pose proof (Z.ggcd_gcd z 1) as Hg. rewrite Z.gcd_1_r in Hg.
  destruct (Z.ggcd z 1) as [g [a b]]. simpl in *. subst g.
  destruct Hd as [-> Hb]. assert (b = 1) as -> by lia.
  f_equal. lia.
Qed.

Lemma round_double_Qeq q q' : q == q' -> round_double q = round_double q'.
Proof. intros H. unfold round_double. by rewrite (Qred_complete _ _ H). Qed.

Lemma round_half_even_1 N : round_half_even N 1 = N.
Proof. unfold round_half_even. by rewrite Z.div_1_r, Z.mod_1_r. Qed.

Lemma round_half_even_nonneg N D : 0 <= N -> 0 < D -> 0 <= round_half_even N D.
Proof.
  intros HN HD. unfold round_half_even.
  pose proof (Z.div_pos N D HN HD).
  destruct (2 * (N mod D) ?= D); [destruct (Z.even _)| |]; lia.
Qed.

Lemma Qred_shifted n shift :
  0 <= shift -> Qred (n * 2 ^ shift # Z.to_pos (2 ^ shift)) = inject_Z n.
Proof.
  intros Hs. rewrite <- (Qred_inject_Z n). apply Qred_complete.
  unfold Qeq, inject_Z. simpl. rewrite Z2Pos.id by (apply Z.pow_pos_nonneg; lia). lia.
Qed.

(** Rounding an integer gives an integer, or [Infinity]. *)
Lemma round_double_integer n :
  0 <= n ->
  Number_of_Z n = Infinity false
  \/ exists k, 0 <= k /\ Number_of_Z n = Fin (inject_Z k).
Proof.
  intros Hn. unfold Number_of_Z, round_double. rewrite Qred_inject_Z. simpl.
  destruct n as [|p|p]; [right; by exists 0 | | lia].
  unfold round_positive.
  set (shift := 52 - _).
  destruct (Z.leb_spec 0 shift) as [Hs|Hs].
  - right. exists (Z.pos p). split; [lia|].
    by rewrite round_half_even_1, Qred_shifted.
  - set (k := round_half_even _ _ * _).
    destruct (2 ^ 1024 <=? k); [by left|]. right. exists k. split; [|done].
    unfold k. apply Z.mul_nonneg_nonneg; [|apply Z.pow_nonneg; lia].
    apply round_half_even_nonneg; [lia|].
    rewrite Z.mul_1_l. apply Z.pow_pos_nonneg; lia.
Qed.

Lemma binary_exponent_integer n : 0 < n -> binary_exponent n 1 = Z.log2 n.
Proof.
  intros Hn. unfold binary_exponent. simpl (Z.log2 1). rewrite Z.sub_0_r.
  pose proof (Z.log2_nonneg n). pose proof (Z.log2_spec n Hn) as [Hlo _].
  rewrite (proj2 (Z.leb_le 0 _)) by done.
  rewrite Z.mul_1_r. by rewrite (proj2 (Z.ltb_ge _ _)).
Qed.

(** The integers up to [2^53] are doubles. *)
Lemma round_double_exact n :
  0 <= n <= 2 ^ 53 -> Number_of_Z n = Fin (inject_Z n).
Proof.
  intros [Hn Hmax]. unfold Number_of_Z, round_double. rewrite Qred_inject_Z. simpl.
  destruct n as [|p|p]; [done | | lia].
  destruct (Z.eq_dec (Z.pos p) (2 ^ 53)) as [->|Hne]; [by vm_compute|].
  unfold round_positive. rewrite binary_exponent_integer by lia.
  assert (Z.log2 (Z.pos p) < 53).
  { apply Z.log2_lt_pow2; lia. }
  pose proof (Z.log2_nonneg (Z.pos p)).
  rewrite Z.max_l by lia.
  rewrite (proj2 (Z.leb_le 0 _)) by lia.
  by rewrite round_half_even_1, Qred_shifted by lia.
Qed.

Lemma Number_of_Z_0 : Number_of_Z 0 = Fin 0.
Proof. reflexivity. Qed.

Lemma Number_of_Z_1 : Number_of_Z 1 = Fin 1.
Proof. by vm_compute. Qed.


Lemma truthy_Fin_inject_Z k : truthy (Num (Fin (inject_Z k))) = negb (k =? 0).
Proof.
  unfold truthy, Qeq_bool, inject_Z. simpl. rewrite Z.mul_1_r. by destruct k.
Qed.

(** Adding one to a count that is a double gives the double nearest to the
    sum. *)
Lemma plus_double k :
  plus Number_toString (Num (Fin (inject_Z k))) (int 1) = int (k + 1).
Proof.
  unfold int at 1. rewrite Number_of_Z_1. unfold plus, int. simpl. f_equal.
  unfold Number_of_Z. apply round_double_Qeq.
  unfold Qeq, inject_Z. simpl. lia.
Qed.

Lemma plus_count n :
  0 <= n <= 2 ^ 53 -> plus Number_toString (int n) (int 1) = int (n + 1).
Proof.
  intros Hn. unfold int at 1. rewrite round_double_exact by done. apply plus_double.
Qed.

Lemma or_count n : 0 <= n -> or_val (int n) (int 0) = int n.
Proof.
  intros Hn. unfold or_val, int.
  destruct (round_double_integer n Hn) as [E | (k & Hk & E)]; rewrite E; [done|].
  rewrite truthy_Fin_inject_Z.
  destruct (Z.eqb_spec k 0) as [->|]; [|done]. simpl. by rewrite Number_of_Z_0.
Qed.

(** An increment of a count, or of no count, gives a count. *)
Lemma increment_gives_count v :
  v = Undef \/ (exists n, 0 <= n /\ v = int n) ->
  exists n, 0 <= n /\ plus Number_toString (or_val v (int 0)) (int 1) = int n.
Proof.
  assert (H1 : plus Number_toString (int 0) (int 1) = int 1).
  { unfold int at 1. rewrite Number_of_Z_0. apply (plus_double 0). }
  intros [-> | (n & Hn & ->)].
  - exists 1. split; [lia|]. exact H1.
  - rewrite or_count by done. unfold int at 1.
    destruct (round_double_integer n Hn) as [E | (k & Hk & E)]; rewrite E.
    + exists n. split; [done|]. unfold int. rewrite Number_of_Z_1, E. done.
    + exists (k + 1). split; [lia|]. apply plus_double.
Qed.

(** *** The two fetch helpers *)

Lemma requests_app evs evs' : requests (evs ++ evs') = requests evs ++ requests evs'.
Proof. apply omap_app. Qed.

Lemma fetchFromFreepik_configured endpoint ps w :
  configured Freepik ->
  fetchFromFreepik endpoint ps w =
    let config := freepik_config endpoint ps in
    let sent := [console_log [Str ("Fetching: " +:+ FREEPIK_API_BASE +:+ endpoint);
                              Obj [("params", Obj ps)]];
                 axios_call config] in
    match axios config with
    | Return data => (Return data, after w sent)
    | Throw error => (Throw error, after w (sent ++ error_log "Freepik API error:" error))
    end.
Proof.
  unfold configured, credential_name. intros Hkey.
  unfold fetchFromFreepik, try_catch, FREEPIK_API_KEY at 1. rewrite Hkey. simpl.
  fold (freepik_config endpoint ps).
  destruct (axios (freepik_config endpoint ps));
    unfold after, bind, emit, throw; simpl; by rewrite <- ?app_assoc.
Qed.

Lemma fetchFromFreepik_unconfigured endpoint ps w :
  ~ configured Freepik ->
  fetchFromFreepik endpoint ps w =
    let error := new_Error "FREEPIK_API_KEY environment variable is not set" in
    (Throw error, after w (error_log "Freepik API error:" error)).
Proof.
  unfold configured, credential_name. intros Hkey%not_true_is_false.
  unfold fetchFromFreepik, try_catch, FREEPIK_API_KEY at 1. rewrite Hkey. simpl.
  unfold after, bind, emit, throw; simpl; by rewrite <- ?app_assoc.
Qed.

Lemma fetchFromIconScout_configured endpoint ps w :
  configured IconScout ->
  fetchFromIconScout endpoint ps w =
    let config := iconscout_config endpoint ps in
    let sent := [console_log [Str ("Fetching: " +:+ ICONSCOUT_API_BASE +:+ endpoint);
                              Obj [("params", Obj ps)]];
                 axios_call config] in
    match axios config with
    | Return data => (Return data, after w sent)
    | Throw error => (Throw error, after w (sent ++ error_log "IconScout API error:" error))
    end.
Proof.
  unfold configured, credential_name. intros Hkey.
  unfold fetchFromIconScout, try_catch, CLIENT_ID at 1. rewrite Hkey. simpl.
  fold (iconscout_config endpoint ps).
  destruct (axios (iconscout_config endpoint ps));
    unfold after, bind, emit, throw; simpl; by rewrite <- ?app_assoc.
Qed.

Lemma fetchFromIconScout_unconfigured endpoint ps w :
  ~ configured IconScout ->
  fetchFromIconScout endpoint ps w =
    let error := new_Error "ICONSCOUT_CLIENT_ID environment variable is not set" in
    (Throw error, after w (error_log "IconScout API error:" error)).
Proof.
  unfold configured, credential_name. intros Hkey%not_true_is_false.
  unfold fetchFromIconScout, try_catch, CLIENT_ID at 1. rewrite Hkey. simpl.
  unfold after, bind, emit, throw; simpl; by rewrite <- ?app_assoc.
Qed.

Lemma configured_dec p : {configured p} + {~ configured p}.
Proof. unfold configured. destruct (truthy _); [left | right]; congruence. Qed.

Lemma unset_not_configured p :
  process_env (credential_name p) = None -> ~ configured p.
Proof. unfold configured, env. intros ->. simpl. congruence. Qed.

(** *** The shape of a search route *)

Lemma pure_ret {A} (a : A) : pure_as (ret a) (Return a).
Proof. done. Qed.

Lemma pure_lift {A} (c : Completion A) : pure_as (lift c) c.
Proof. done. Qed.

Lemma pure_bind {A B} (m : Eff A) (k : A -> Eff B) c f :
  pure_as m c -> (forall a, pure_as (k a) (f a)) -> pure_as (bind m k) (and_then c f).
Proof.
  intros Hm Hk w. unfold bind. rewrite Hm. destruct c; simpl; [apply Hk | done].
Qed.

(** Every search route is a fetch followed by a computation on the
    payload, inside a [try] whose [catch] answers the failure. *)
Lemma route_shape (fetch : Eff Val) (k : Val -> Eff Res) tail text w :
  (forall data, pure_as (k data) (tail data)) ->
  try_catch (bind fetch k) (fun error => lift (respond_failure text error)) w =
    (settle text (and_then (fst (fetch w)) tail), snd (fetch w)).
Proof.
  intros Hk. unfold try_catch, bind.
  destruct (fetch w) as [[data|e] w1]; simpl; [|done].
  rewrite Hk. by destruct (tail data).
Qed.

(** The [catch] block answers when the status it is given is one that
    [res.status] accepts: every status from 100 to 999, and the 500 it
    falls back to. *)
Lemma respond_failure_valid text error :
  100 <= status_or_500 error <= 999 ->
  respond_failure text error = Return (failure_response text error).
Proof.
  intros [Hlo Hhi]. unfold respond_failure, res_status_json. simpl.
  by rewrite (proj2 (Z.leb_le _ _) Hlo), (proj2 (Z.leb_le _ _) Hhi).
Qed.

Lemma respond_failure_invalid text error :
  ~ 100 <= status_or_500 error <= 999 ->
  exists thrown, respond_failure text error = Throw thrown /\ response thrown = None.
Proof.
  intros H. unfold respond_failure, res_status_json. simpl.
  destruct (Z.leb_spec 100 (status_or_500 error));
    destruct (Z.leb_spec (status_or_500 error) 999); simpl; try lia; by eexists.
Qed.

Lemma respond_failure_Return text error res :
  respond_failure text error = Return res -> res = failure_response text error.
Proof.
  unfold respond_failure, res_status_json. by destruct (_ && _); intros [= <-].
Qed.

Lemma settle_Return text c res :
  settle text c = Return res ->
  c = Return res \/ exists error, c = Throw error /\ res = failure_response text error.
Proof.
  destruct c as [r|error]; simpl.
  - intros [= ->]. by left.
  - intros ->%respond_failure_Return. right. by exists error.
Qed.

Lemma status_without_response error :
  response error = None -> status_or_500 error = 500.
Proof. unfold status_or_500. by intros ->. Qed.

Lemma respond_failure_500 text error :
  response error = None ->
  respond_failure text error = Return (failure_response text error).
Proof.
  intros H. apply respond_failure_valid. rewrite (status_without_response _ H). lia.
Qed.

Ltac pure_tac :=
  intros; unfold respond_success;
  repeat first [ apply pure_ret | apply pure_lift | eapply pure_bind; intros ].

Ltac unfold_route :=
  unfold search_route,
    iconscout_GET_api_icons, iconscout_GET_api_3d_icons,
    iconscout_GET_api_illustrations, iconscout_GET_api_lottie,
    iconscout_GET_api_search, iconscout_search,
    freepik_GET_api_icons, freepik_GET_api_3d_icons,
    freepik_GET_api_illustrations, freepik_GET_api_lottie,
    freepik_GET_api_search.

Lemma fetch_result_same_in_every_world p endpoint ps w1 w2 :
  fst (match p with
       | IconScout => fetchFromIconScout endpoint ps w1
       | Freepik => fetchFromFreepik endpoint ps w1
       end) =
  fst (match p with
       | IconScout => fetchFromIconScout endpoint ps w2
       | Freepik => fetchFromFreepik endpoint ps w2
       end).
Proof.
  destruct (configured_dec p); destruct p;
    rewrite ?fetchFromIconScout_configured, ?fetchFromFreepik_configured,
      ?fetchFromIconScout_unconfigured, ?fetchFromFreepik_unconfigured by done;
    cbv zeta; try done;
    match goal with |- context [axios ?c] => by destruct (axios c) end.
Qed.


Lemma strict_eq_Str_ne v s : v <> Str s -> strict_eq v (Str s) = false.
Proof.
  destruct v; simpl; try done. intros Hne.
  apply bool_decide_eq_false_2. congruence.
Qed.

(** *** The two transforms *)

Lemma get_Return v k x : get v k = Return x -> x = member v k /\ nullish v = false.
Proof. destruct v; simpl; intros [= <-]; done. Qed.

Lemma get_total v k : nullish v = false -> get v k = Return (member v k).
Proof. by destruct v. Qed.

Lemma find_tagged tag v l t :
  find (tag_is tag v) l = Return t ->
  opt_member t "url" =
    match List.find (fun t => strict_eq (member t tag) v) l with
    | Some t => member t "url"
    | None => Undef
    end.
Proof.
  induction l as [|x l IH]; simpl.
  - by intros [= <-].
  - unfold tag_is at 1. destruct (get x tag) as [y|e] eqn:E; simpl; [|done].
    apply get_Return in E as [-> Hx].
    destruct (strict_eq (member x tag) v); [|done].
    intros [= <-]. unfold opt_member. by rewrite Hx.
Qed.

Lemma find_url_tagged item tag v u :
  find_url (member item "thumbnails") (tag_is tag v) = Return u ->
  u = tagged_url tag v item.
Proof.
  unfold find_url, tagged_url, thumbnails_of.
  destruct (member item "thumbnails") as [| | | | |l| |]; simpl; try done;
    try by intros [= <-].
  destruct (find (tag_is tag v) l) as [t|e] eqn:E; simpl; [|done].
  intros [= <-]. by apply find_tagged.
Qed.

Lemma find_total tag v l :
  forallb (fun t => negb (nullish t)) l = true ->
  exists t, find (tag_is tag v) l = Return t.
Proof.
  induction l as [|x l IH]; simpl; [eauto|].
  intros [Hx Hl]%andb_true_iff. apply negb_true_iff in Hx.
  unfold tag_is at 1. rewrite get_total by done. simpl.
  destruct (strict_eq (member x tag) v); eauto.
Qed.

Lemma find_url_total item tag v :
  well_formed item = true ->
  exists u, find_url (member item "thumbnails") (tag_is tag v) = Return u.
Proof.
  unfold well_formed, find_url. intros [_ H]%andb_true_iff.
  destruct (member item "thumbnails") as [| | | | |l| |]; try done; eauto.
  destruct (find_total tag v l H) as [t ->]. simpl. eauto.
Qed.

Lemma icon_item_Return item a :
  icon_item item = Return a ->
  nullish item = false /\
  a = {| Asset.id := member item "id";
         Asset.uuid := Str (ToString Number_toString (member item "id"));
         Asset.name := or_val (or_val (member item "description") (member item "name"))
                          (Str "Untitled Icon");
         Asset.urls :=
           {| Asset.png_128 := or_val (tagged_url "size" (int 128) item)
                                  (first_thumbnail_url item);
              Asset.png_64 := or_val (tagged_url "size" (int 64) item)
                                 (first_thumbnail_url item);
              Asset.thumb := first_thumbnail_url item |};
         Asset.preview := first_thumbnail_url item |}.
Proof.
  unfold icon_item.
  destruct (get item "id") as [id|] eqn:Eid; simpl; [|done].
  apply get_Return in Eid as [-> Hitem].
  unfold String_. destruct (printable (member item "id")); simpl; [|done].
  destruct (find_url _ (size_is 128)) as [u128|] eqn:E128; simpl; [|done].
  destruct (find_url _ (size_is 64)) as [u64|] eqn:E64; simpl; [|done].
  apply (find_url_tagged item "size" (int 128)) in E128 as ->.
  apply (find_url_tagged item "size" (int 64)) in E64 as ->.
  by intros [= <-].
Qed.

Lemma resource_item_Return item a :
  resource_item item = Return a ->
  nullish item = false /\
  a = {| Asset.id := member item "id";
         Asset.uuid := Str (ToString Number_toString (member item "id"));
         Asset.name := spec_display_name item;
         Asset.urls :=
           {| Asset.png_128 := or_val (image_url item) (tagged_url "key" (Str "small") item);
              Asset.png_64 := or_val (image_url item) (tagged_url "key" (Str "small") item);
              Asset.thumb := or_val (image_url item) (first_thumbnail_url item) |};
         Asset.preview := image_url item |}.
Proof.
  unfold resource_item. fold (image_url item).
  destruct (get item "id") as [id|] eqn:Eid; simpl; [|done].
  apply get_Return in Eid as [-> Hitem].
  unfold String_. destruct (printable (member item "id")); simpl; [|done].
  unfold or_else, or_val. destruct (truthy (image_url item)) eqn:Eimg; simpl.
  { by intros [= <-]. }
  destruct (find_url _ key_is_small) as [u|] eqn:E; simpl; [|done].
  apply (find_url_tagged item "key" (Str "small")) in E as ->.
  by intros [= <-].
Qed.

Lemma items_total item :
  well_formed item = true ->
  (exists a, icon_item item = Return a) /\ (exists a, resource_item item = Return a).
Proof.
  intros Hwf.
  pose proof Hwf as [[Hitem%negb_true_iff Hid]%andb_true_iff _]%andb_true_iff.
  destruct (find_url_total item "size" (int 128) Hwf) as [u128 E128].
  destruct (find_url_total item "size" (int 64) Hwf) as [u64 E64].
  destruct (find_url_total item "key" (Str "small") Hwf) as [us Es].
  split.
  - unfold icon_item, String_. rewrite get_total by done. simpl. rewrite Hid. simpl.
    change (size_is 128) with (tag_is "size" (int 128)).
    change (size_is 64) with (tag_is "size" (int 64)).
    rewrite E128, E64. simpl. eauto.
  - unfold resource_item, String_. rewrite get_total by done. simpl. rewrite Hid. simpl.
    change key_is_small with (tag_is "key" (Str "small")).
    unfold or_else. destruct (truthy _); simpl; [eauto|].
    rewrite Es. simpl. eauto.
Qed.

Lemma or_truthy a b : truthy b = true -> truthy (or_val a b) = true.
Proof. unfold or_val. by destruct (truthy a) eqn:E. Qed.

Lemma map_array_ids (f : Val -> Completion Asset.t) l assets :
  (forall item a, f item = Return a -> Asset.id a = member item "id") ->
  map_array f l = Return assets ->
  map Asset.id assets = map (fun item => member item "id") l.
Proof.
  intros Hf. revert assets. induction l as [|item l IH]; simpl; intros assets.
  - by intros [= <-].
  - destruct (f item) as [a|] eqn:Ea; simpl; [|done].
    destruct (map_array f l) as [rest|]; simpl; [|done].
    intros [= <-]. simpl. f_equal; eauto.
Qed.

(** The assets of a transformed payload carry the ids of the provider's
    items, in the provider's order. *)
Lemma transform_keeps_ids data assets :
  transformIconResponse data = Return assets
  \/ transformResourceResponse data = Return assets ->
  map Asset.id assets = map (fun item => member item "id") (items_of data).
Proof.
  unfold transformIconResponse, transformResourceResponse, items_of, items_map.
  destruct (get data "data") as [d|] eqn:E; simpl; [|by intros [|]].
  apply get_Return in E as [-> _].
  destruct (or_val (member data "data") (Arr [])); try by intros [|].
  intros [H|H]; revert H; apply map_array_ids.
  - by intros item a [_ ->]%icon_item_Return.
  - by intros item a [_ ->]%resource_item_Return.
Qed.

(** *** What is thrown after the fetch

    Everything that the [try] block of a route can throw once the provider
    has answered is a [TypeError] of the engine, which has no [response]:
    the [catch] block answers it with status 500. *)

Lemma own_and_then {A B} (c : Completion A) (k : A -> Completion B) :
  own_error c -> (forall a, own_error (k a)) -> own_error (and_then c k).
Proof. destruct c; simpl; auto. Qed.

Lemma own_get v k : own_error (get v k).
Proof. by destruct v. Qed.

Lemma own_String_ v : own_error (String_ v).
Proof. unfold String_. by destruct (printable v). Qed.

Lemma own_find callback l :
  (forall t, own_error (callback t)) -> own_error (find callback l).
Proof.
  intros Hcb. induction l as [|t l IH]; simpl; [done|].
  apply own_and_then; [done|]. by intros [].
Qed.

Lemma own_size_is n t : own_error (size_is n t).
Proof. apply own_and_then; [apply own_get | done]. Qed.

Lemma own_key_is_small t : own_error (key_is_small t).
Proof. apply own_and_then; [apply own_get | done]. Qed.

Lemma own_find_url thumbnails callback :
  (forall t, own_error (callback t)) -> own_error (find_url thumbnails callback).
Proof.
  intros Hcb. destruct thumbnails; simpl; try done.
  apply own_and_then; [by apply own_find | done].
Qed.

Lemma own_map_array {A} (callback : Val -> Completion A) l :
  (forall item, own_error (callback item)) -> own_error (map_array callback l).
Proof.
  intros Hcb. induction l as [|item l IH]; simpl; [done|].
  apply own_and_then; [done|]. intros a. by apply own_and_then.
Qed.

Lemma own_items_map {A} items (callback : Val -> Completion A) :
  (forall item, own_error (callback item)) -> own_error (items_map items callback).
Proof. intros Hcb. destruct items; simpl; try done. by apply own_map_array. Qed.

Lemma own_icon_item item : own_error (icon_item item).
Proof.
  unfold icon_item.
  repeat first [ apply own_get | apply own_String_
               | apply own_find_url; apply own_size_is
               | apply own_and_then; [|intros ?] | done ].
Qed.

Lemma own_resource_item item : own_error (resource_item item).
Proof.
  unfold resource_item, or_else.
  repeat first [ apply own_get | apply own_String_
               | apply own_find_url; apply own_key_is_small
               | apply own_and_then; [|intros ?]
               | match goal with |- context [if ?b then _ else _] => destruct b end
               | done ].
Qed.

Lemma own_transformIconResponse data : own_error (transformIconResponse data).
Proof.
  apply own_and_then; [apply own_get|]. intros d.
  apply own_items_map, own_icon_item.
Qed.

Lemma own_transformResourceResponse data : own_error (transformResourceResponse data).
Proof.
  apply own_and_then; [apply own_get|]. intros d.
  apply own_items_map, own_resource_item.
Qed.

Ltac own_tac :=
  repeat first [ apply own_get
               | apply own_transformIconResponse
               | apply own_transformResourceResponse
               | apply own_and_then; [|intros ?]
               | exact I ].

(** The [catch] block answers an error of the program's own. *)
Lemma settle_own text c :
  own_error c ->
  settle text c =
    Return match c with
           | Return res => res
           | Throw error => failure_response text error
           end.
Proof. destruct c; simpl; [done|]. apply respond_failure_500. Qed.

(** *** The download counter *)

Lemma read_assign_other counts k v other :
  other <> k -> read (assign counts k v) other = read counts other.
Proof.
  intros Hne. unfold assign, read.
  destruct (counts !! k); [|case_bool_decide]; by rewrite ?lookup_insert_ne.
Qed.

Lemma read_assign_ordinary counts k v :
  Object_prototype k = None -> read (assign counts k v) k = v.
Proof.
  intros Hk. unfold assign, read.
  destruct (counts !! k); [|case_bool_decide as E];
    rewrite ?lookup_insert_eq; try done.
  by rewrite E in Hk.
Qed.

Lemma counts_after_POST assetId w :
  downloadCounts (snd (POST_api_downloads_assetId assetId w)) =
    assign (downloadCounts w) assetId
           (plus Number_toString (or_val (read (downloadCounts w) assetId) (int 0)) (int 1)).
Proof.
  unfold POST_api_downloads_assetId, bind, saveDownloadCounts.
  by destruct (negb _).
Qed.

(** On an asset id that is not a property of [Object.prototype], the
    counter counts as far as doubles do: after an increment, [GET] answers
    the previous count plus one, or one when the id was not seen before,
    for a previous count up to [2^53]. *)
Lemma increment_then_get_ordinary assetId w (previous : Z) :
  Object_prototype assetId = None ->
  0 <= previous <= 2 ^ 53 ->
  (downloadCounts w !! assetId = None /\ previous = 0)
  \/ downloadCounts w !! assetId = Some (int previous) ->
  exists res,
    fst (GET_api_downloads_assetId assetId
           (snd (POST_api_downloads_assetId assetId w))) = Return res
    /\ field res "downloads" = Some (int (previous + 1)).
Proof.
  intros Hk Hbound Hprev. eexists. split; [reflexivity|].
  unfold field. simpl. f_equal. rewrite counts_after_POST, read_assign_ordinary by done.
  assert (or_val (read (downloadCounts w) assetId) (int 0) = int previous) as ->.
  { unfold read. destruct Hprev as [[-> ->] | ->]; [by rewrite Hk | apply or_count; lia]. }
  rewrite plus_count by done. apply or_count. lia.
Qed.

(** *** Whether a route answers *)

Ltac run_route :=
  unfold_route;
  try destruct (strict_eq (destructure _ "asset" (Str "icon")) (Str "icon")) eqn:?;
  (erewrite route_shape; [|pure_tac]);
  rewrite ?fetchFromIconScout_configured, ?fetchFromFreepik_configured,
    ?fetchFromIconScout_unconfigured, ?fetchFromFreepik_unconfigured by done;
  cbv zeta.

Ltac run_tail :=
  repeat match goal with
         | |- context [and_then ?c _] => destruct c; simpl
         end.

(** A search route answers, with 200 and [success: true] or with
    [success: false], an empty [data] and no [note], unless the provider
    call fails with a status that [res.status] refuses. *)
Lemma search_route_answers p r query w :
  (forall config error,
     axios config = Throw error -> 100 <= status_or_500 error <= 999) ->
  exists res, fst (search_route p r query w) = Return res.
Proof.
  intros Hstatus.
  destruct (configured_dec p); destruct p, r; run_route;
    try match goal with
        | |- context [axios ?c] => destruct (axios c) as [data|error] eqn:E
        end;
    simpl;
    try (rewrite respond_failure_valid by eauto);
    try (rewrite respond_failure_500 by done);
    try (rewrite settle_own by own_tac);
    eauto.
Qed.

(** ** The claims *)


(** C2: a successful search carries a non-empty [note] exactly on the
    route whose kind has no native provider category, Freepik's
    [/api/lottie]; on every other route of both revisions, [/api/search]
    with any asset kind included, the response has no [note]. *)
Theorem C2_note_only_when_approximated p r query w res w' :
  search_route p r query w = (Return res, w') ->
  field res "success" = Some (Bool true) ->
  field res "note" = (if no_native_category p r then Some (Str lottie_note) else None)
  /\ lottie_note <> "".
Proof.
  intros Hrun Hsuccess. split; [|done].
  destruct p, r; revert Hrun; unfold_route;
    try destruct (strict_eq (destructure query "asset" (Str "icon")) (Str "icon"));
    (erewrite route_shape; [|pure_tac]);
    intros [= [Hres | (error & _ & ->)]%settle_Return _]; try done;
    revert Hres Hsuccess.
  all: repeat match goal with
              | |- context [and_then ?c _] => destruct c; simpl
              end.
  all: try done.
  all: intros [= <-]; unfold field; simpl; congruence.
Qed.

(** C3, amended: the icon transform takes, for [png_128] and [png_64],
    the URL of the first thumbnail of that pixel size, else the URL of the
    first thumbnail, and never a full-resolution image; the resource
    transform takes the full-resolution image URL first and, without one,
    the URL of the first thumbnail keyed [small] ([png_128], [png_64]) or of
    the first thumbnail ([thumb]).  Both transforms return on every
    well-formed item. *)
Theorem C3_thumbnail_preference item :
  (forall a, icon_item item = Return a ->
     let first := first_thumbnail_url item in
     Asset.urls a =
       {| Asset.png_128 := or_val (tagged_url "size" (int 128) item) first;
          Asset.png_64 := or_val (tagged_url "size" (int 64) item) first;
          Asset.thumb := first |}
     /\ Asset.preview a = first)
  /\ (forall a, resource_item item = Return a ->
       let image := image_url item in
       Asset.urls a =
         {| Asset.png_128 := or_val image (tagged_url "key" (Str "small") item);
            Asset.png_64 := or_val image (tagged_url "key" (Str "small") item);
            Asset.thumb := or_val image (first_thumbnail_url item) |}
       /\ Asset.preview a = image)
  /\ (well_formed item = true ->
       (exists a, icon_item item = Return a) /\
       (exists a, resource_item item = Return a)).
Proof.
  split; [|split].
  - by intros a [_ ->]%icon_item_Return.
  - by intros a [_ ->]%resource_item_Return.
  - apply items_total.
Qed.


(** C5: without the credential in the environment, every search route of
    both revisions answers with the configuration error (status 500,
    [success: false], the message naming the missing variable), and the
    only thing the process does is to log that error: no request is sent
    to the provider. *)
Theorem C5_missing_credential_fails_fast p r query w :
  process_env (credential_name p) = None ->
  exists res logged,
    search_route p r query w = (Return res, after w logged)
    /\ requests logged = []
    /\ status res = 500
    /\ field res "success" = Some (Bool false)
    /\ field res "data" = Some (Arr [])
    /\ field res "message" =
         Some (Str (credential_name p +:+ " environment variable is not set")).
Proof.
  intros Hunset%unset_not_configured.
  destruct p, r; unfold_route;
    try destruct (strict_eq (destructure query "asset" (Str "icon")) (Str "icon"));
    (erewrite route_shape; [|pure_tac]);
    rewrite ?fetchFromIconScout_unconfigured, ?fetchFromFreepik_unconfigured by done;
    simpl; rewrite respond_failure_500 by done;
    do 2 eexists; (split; [reflexivity|]); by repeat split.
Qed.

(** C6, amended: the resource transform names an asset by its [title],
    else its [filename], else ["Untitled"]; the icon transform by its
    [description], else its [name], else ["Untitled Icon"].  Either way the
    name is never [null], [undefined] or empty, and both transforms return
    on every well-formed item. *)
Theorem C6_display_name item :
  (forall a, resource_item item = Return a ->
     Asset.name a =
       or_val (or_val (member item "title") (member item "filename")) (Str "Untitled"))
  /\ (forall a, icon_item item = Return a ->
       Asset.name a =
         or_val (or_val (member item "description") (member item "name"))
            (Str "Untitled Icon"))
  /\ (forall a, resource_item item = Return a \/ icon_item item = Return a ->
       truthy (Asset.name a) = true /\
       Asset.name a <> Null /\ Asset.name a <> Undef /\ Asset.name a <> Str "")
  /\ (well_formed item = true ->
       (exists a, icon_item item = Return a) /\
       (exists a, resource_item item = Return a)).
Proof.
  split; [|split; [|split]].
  - by intros a [_ ->]%resource_item_Return.
  - by intros a [_ ->]%icon_item_Return.
  - intros a H.
    assert (Ht : truthy (Asset.name a) = true).
    { destruct H as [[_ ->]%resource_item_Return | [_ ->]%icon_item_Return];
        by apply or_truthy. }
    split; [done|]. repeat split; intros E; by rewrite E in Ht.
  - apply items_total.
Qed.

(** C7 fails on the asset ids that a plain object inherits: in a fresh
    process, [downloadCounts["constructor"]] is the function [Object], so
    the increment concatenates instead of adding and [GET] answers a
    string, not the count 1. *)
Theorem C7_inherited_key_not_counted :
  let w' := snd (POST_api_downloads_assetId "constructor" fresh) in
  exists res,
    fst (GET_api_downloads_assetId "constructor" w') = Return res
    /\ field res "downloads" =
         Some (Str ("function Object() { [native code] }" +:+ Number_toString 1))
    /\ field res "downloads" <> Some (int 1).
Proof.
  eexists. split; [reflexivity|].
  unfold field. simpl. rewrite counts_after_POST. simpl. done.
Qed.

(** C8: a search route does the same with the same request in whatever
    state the process is: nothing that an earlier search or download left
    behind is read, and the provider, a function of the request, answers as
    before.  So when the statuses of the provider's failures are ones that
    [res.status] accepts, both searches are answered, with the same sequence
    of asset ids (when one is not, both throw the same error).  In the
    Freepik revision the ids are those of the provider's items, in the
    provider's order. *)
Theorem C8_repeated_search_same_ids p r query w1 w2 :
  fst (search_route p r query w1) = fst (search_route p r query w2)
  /\ ((forall config error,
         axios config = Throw error -> 100 <= status_or_500 error <= 999) ->
      exists res1 res2,
        fst (search_route p r query w1) = Return res1
        /\ fst (search_route p r query w2) = Return res2
        /\ asset_ids res1 = asset_ids res2)
  /\ (forall data assets,
        transformIconResponse data = Return assets
        \/ transformResourceResponse data = Return assets ->
        map Asset.id assets = map (fun item => member item "id") (items_of data)).
Proof.
  assert (Hsame : fst (search_route p r query w1) = fst (search_route p r query w2)).
  { destruct p, r; unfold_route;
      try destruct (strict_eq (destructure query "asset" (Str "icon")) (Str "icon"));
      (erewrite !route_shape; [|pure_tac..]); simpl.
    all: try (erewrite (fetch_result_same_in_every_world IconScout); reflexivity).
    all: try (erewrite (fetch_result_same_in_every_world Freepik); reflexivity). }
  split; [done|]. split; [|apply transform_keeps_ids].
  intros Hstatus. rewrite <- Hsame.
  destruct (search_route_answers p r query w1 Hstatus) as [res ->]. by exists res, res.
Qed.

(** C9: incrementing the counter of one asset leaves what [GET
    /api/downloads/:assetId] answers for every other asset as it was. *)
Theorem C9_increment_frame assetId other w :
  other <> assetId ->
  let w' := snd (POST_api_downloads_assetId assetId w) in
  read (downloadCounts w') other = read (downloadCounts w) other
  /\ fst (GET_api_downloads_assetId other w') = fst (GET_api_downloads_assetId other w).
Proof.
  intros Hne w'.
  assert (H : read (downloadCounts w') other = read (downloadCounts w) other).
  { unfold w'. rewrite counts_after_POST. by apply read_assign_other. }
  split; [done|]. unfold GET_api_downloads_assetId, ret. simpl. by rewrite H.
Qed.

(** C10: on Freepik's [/api/search], an asset kind other than [icon],
    [3d], [illustration], [vector] and [photo] goes to [/resources] with the
    term as received and the licence filter only, and the response has no
    [note]; [/api/lottie] instead appends [" animation motion"] to the term,
    filters on vectors and, on success, attaches the note. *)
Theorem C10_search_other_kinds query w :
  configured Freepik ->
  let q := destructure query "q" (Str "popular") in
  let page := destructure query "page" (int 1) in
  let per_page := destructure query "per_page" (int 20) in
  let asset := destructure query "asset" (Str "icon") in
  asset ∉ [Str "icon"; Str "3d"; Str "illustration"; Str "vector"; Str "photo"] ->
  sends_one (freepik_GET_api_search query) w
    (fun config =>
       url config = FREEPIK_API_BASE +:+ "/resources"
       /\ params config =
            [("term", q); ("page", page); ("limit", min_100 per_page);
             ("order", Str "relevance"); ("filters[license][freemium]", int 1)])
  /\ (forall res w',
        freepik_GET_api_search query w = (Return res, w') ->
        field res "note" = None)
  /\ sends_one (freepik_GET_api_lottie query) w
       (fun config =>
          url config = FREEPIK_API_BASE +:+ "/resources"
          /\ params config =
               [("term", plus Number_toString q (Str " animation motion"));
                ("page", page); ("limit", min_100 per_page);
                ("order", Str "relevance");
                ("filters[content_type][vector]", int 1);
                ("filters[license][freemium]", int 1)])
  /\ (forall res w',
        freepik_GET_api_lottie query w = (Return res, w') ->
        field res "success" = Some (Bool true) ->
        field res "note" = Some (Str lottie_note)).
Proof.
  intros Hkey q page per_page asset Hasset.
  assert (Hicon : strict_eq asset (Str "icon") = false).
  { apply strict_eq_Str_ne. set_solver. }
  assert (Hfilters : search_filters asset = []).
  { unfold search_filters.
    rewrite !strict_eq_Str_ne; [done | set_solver..]. }
  repeat split.
  - unfold sends_one, freepik_GET_api_search. fold asset. rewrite Hicon, Hfilters.
    erewrite route_shape; [|pure_tac].
    rewrite fetchFromFreepik_configured by done. cbv zeta.
    match goal with |- context [axios ?c] => exists c; destruct (axios c) end;
      simpl; rewrite requests_app; by simpl.
  - intros res w'. unfold freepik_GET_api_search. fold asset. rewrite Hicon.
    erewrite route_shape; [|pure_tac].
    intros [= [Hres | (error & _ & ->)]%settle_Return _]; [|done].
    revert Hres.
    repeat match goal with
           | |- context [and_then ?c _] => destruct c; simpl
           end; try done; by intros [= <-].
  - unfold sends_one, freepik_GET_api_lottie.
    erewrite route_shape; [|pure_tac].
    rewrite fetchFromFreepik_configured by done. cbv zeta.
    match goal with |- context [axios ?c] => exists c; destruct (axios c) end;
      simpl; rewrite requests_app; by simpl.
  - intros res w'. unfold freepik_GET_api_lottie.
    erewrite route_shape; [|pure_tac].
    intros [= [Hres | (error & _ & ->)]%settle_Return _]; [|done].
    revert Hres.
    repeat match goal with
           | |- context [and_then ?c _] => destruct c; simpl
           end; try done; by intros [= <-].
Qed.

(** ** Further properties *)

(** *** Search routes, whatever the provider does *)

(** X1: a search route answers whatever the provider does, with one
    exception: it responds either 200 with [success: true], or
    [success: false] with an empty [data] and no [note]; only when the
    provider call fails with a status that [res.status] refuses (one
    outside 100..999) does the [catch] block itself throw, a [RangeError],
    and the handler ends without an answer of its own. *)
Theorem search_route_answers_or_refuses_status p r query w :
  (exists res w',
     search_route p r query w = (Return res, w')
     /\ ((status res = 200 /\ field res "success" = Some (Bool true))
         \/ (field res "success" = Some (Bool false)
             /\ field res "data" = Some (Arr [])
             /\ field res "note" = None)))
  \/ (exists config error thrown w',
        configured p
        /\ axios config = Throw error
        /\ ~ 100 <= status_or_500 error <= 999
        /\ search_route p r query w = (Throw thrown, w')
        /\ response thrown = None).
Proof.
  destruct (configured_dec p); destruct p, r; run_route;
    try match goal with
        | |- context [axios ?c] => destruct (axios c) as [data|error] eqn:E
        end;
    simpl;
    try (rewrite respond_failure_500 by done);
    try (rewrite settle_own by own_tac).
  all: try (left; do 2 eexists; (split; [reflexivity|]);
            run_tail; unfold field; simpl; by auto).
  all: destruct (decide (100 <= status_or_500 error <= 999)) as [Hv|Hv];
    [ left; rewrite respond_failure_valid by done;
      do 2 eexists; (split; [reflexivity|]); unfold field; simpl; by auto
    | right;
      match goal with
      | |- context [respond_failure ?t ?e] =>
          destruct (respond_failure_invalid t e Hv) as (thrown & -> & Hnone)
      end;
      do 4 eexists; repeat split; eauto ].
Qed.

(** X2: a search never touches the download counter and never writes a
    file; it sends the provider one request when the credential is
    configured and none otherwise, also when the provider fails: nothing is
    retried. *)
Theorem search_route_effects p r query w :
  let w' := snd (search_route p r query w) in
  downloadCounts w' = downloadCounts w
  /\ exists evs,
       events w' = events w ++ evs
       /\ Forall (fun ev => is_write ev = false) evs
       /\ length (requests evs) =
            (if truthy (env (credential_name p)) then 1%nat else 0%nat).
Proof.
  destruct (configured_dec p) as [Hkey|Hkey];
    [rewrite Hkey | rewrite (not_true_is_false _ Hkey)];
    destruct p, r; run_route;
    try match goal with |- context [axios ?c] => destruct (axios c) end;
    simpl; (split; [reflexivity|]); eexists; (split; [reflexivity|]);
    split; try reflexivity; repeat constructor.
Qed.

(** X3: when the provider's answer has no body at all ([null] or
    [undefined]), reading it throws inside the [try] and the route answers
    500 with [success: false] and an empty [data]. *)
Theorem empty_body_answers_500 p r query w body :
  configured p ->
  (forall config, axios config = Return body) ->
  nullish body = true ->
  exists res w',
    search_route p r query w = (Return res, w')
    /\ status res = 500
    /\ field res "success" = Some (Bool false)
    /\ field res "data" = Some (Arr [])
    /\ (exists text, field res "message" = Some (Str text) /\ text <> "").
Proof.
  intros Hkey Hbody Hnull.
  destruct p, r; run_route; rewrite Hbody; simpl;
    rewrite settle_own by own_tac;
    do 2 eexists; (split; [reflexivity|]);
    destruct body; try discriminate Hnull; simpl;
    unfold field; simpl; repeat split; eauto.
Qed.

(** X4: a credential that is set but empty counts as missing: the route
    answers the configuration error and sends nothing. *)
Theorem empty_credential_is_missing p r query w :
  process_env (credential_name p) = Some "" ->
  exists res logged,
    search_route p r query w = (Return res, after w logged)
    /\ requests logged = []
    /\ status res = 500
    /\ field res "success" = Some (Bool false)
    /\ field res "message" =
         Some (Str (credential_name p +:+ " environment variable is not set")).
Proof.
  intros Hempty.
  assert (Hkey : ~ configured p).
  { unfold configured, env. rewrite Hempty. simpl. congruence. }
  destruct p, r; run_route;
    simpl; rewrite respond_failure_500 by done;
    do 2 eexists; (split; [reflexivity|]); by repeat split.
Qed.

(** *** Payloads *)

Lemma map_array_total {A} (f : Val -> Completion A) (P : Val -> bool) l :
  (forall item, P item = true -> exists a, f item = Return a) ->
  forallb P l = true ->
  exists assets, map_array f l = Return assets /\ length assets = length l.
Proof.
  intros Hf. induction l as [|item l IH]; simpl; [eauto|].
  intros [Hitem Hl]%andb_true_iff.
  destruct (Hf item Hitem) as [a ->]. destruct (IH Hl) as (rest & -> & Hlen).
  simpl. eexists. split; [reflexivity|]. simpl. by rewrite Hlen.
Qed.

Lemma map_array_throws {A} (f : Val -> Completion A) l item :
  item ∈ l -> (exists e, f item = Throw e) -> exists e, map_array f l = Throw e.
Proof.
  intros Hin [e He]. induction l as [|other l IH]; [by apply elem_of_nil in Hin|].
  apply elem_of_cons in Hin as [<-|Hin]; simpl.
  - rewrite He. simpl. eauto.
  - destruct (f other); simpl; [|eauto].
    destruct (IH Hin) as [e' ->]. by exists e'.
Qed.

(** X5: on a payload whose [data] is missing or an array of well-formed
    items, both transforms return, with one asset for each item. *)
Theorem transforms_return_on_well_formed_payload freepikData :
  payload_ok freepikData = true ->
  (exists assets,
     transformIconResponse freepikData = Return assets
     /\ length assets = length (items_of freepikData))
  /\ (exists assets,
        transformResourceResponse freepikData = Return assets
        /\ length assets = length (items_of freepikData)).
Proof.
  unfold payload_ok, transformIconResponse, transformResourceResponse, items_of, items_map.
  intros [Hdata%negb_true_iff Hitems]%andb_true_iff.
  rewrite get_total by done. simpl.
  destruct (or_val (member freepikData "data") (Arr [])); try done.
  split; apply (map_array_total _ well_formed); try done;
    intros item Hwf; by destruct (items_total item Hwf).
Qed.

(** X6: one [null] (or [undefined]) among the items makes both transforms
    throw: no asset of the payload is returned. *)
Theorem one_null_item_fails_the_payload freepikData l item :
  member freepikData "data" = Arr l ->
  item ∈ l ->
  nullish item = true ->
  (exists e, transformIconResponse freepikData = Throw e)
  /\ (exists e, transformResourceResponse freepikData = Throw e).
Proof.
  intros Hdata Hin Hnull.
  assert (Hnn : nullish freepikData = false).
  { destruct freepikData; try done; discriminate Hdata. }
  unfold transformIconResponse, transformResourceResponse, items_map.
  rewrite get_total by done. simpl. rewrite Hdata. simpl.
  split; apply (map_array_throws _ l item Hin);
    destruct item; try discriminate Hnull; simpl; eauto.
Qed.

(** X7: a resource whose [id] converts to a string and which has a
    full-resolution image URL gets that URL as all four of its URLs,
    whatever its thumbnails are: they are not looked at. *)
Theorem resource_with_image_ignores_thumbnails item :
  nullish item = false ->
  printable (member item "id") = true ->
  truthy (image_url item) = true ->
  exists a,
    resource_item item = Return a
    /\ Asset.urls a = {| Asset.png_128 := image_url item;
                         Asset.png_64 := image_url item;
                         Asset.thumb := image_url item |}
    /\ Asset.preview a = image_url item.
Proof.
  intros Hitem Hid Himage. unfold resource_item, String_. fold (image_url item).
  rewrite get_total by done. simpl. rewrite Hid. simpl.
  unfold or_else, or_val. rewrite Himage. simpl. eauto.
Qed.

(** X8: when the first thumbnail of an icon has a URL, all four URLs of
    the asset are present; when the icon has no thumbnail, none is. *)
Theorem icon_urls_follow_first_thumbnail item a :
  icon_item item = Return a ->
  (truthy (first_thumbnail_url item) = true ->
   truthy (Asset.png_128 (Asset.urls a)) = true
   /\ truthy (Asset.png_64 (Asset.urls a)) = true
   /\ truthy (Asset.thumb (Asset.urls a)) = true
   /\ truthy (Asset.preview a) = true)
  /\ (thumbnails_of item = [] ->
      Asset.urls a = {| Asset.png_128 := Undef;
                        Asset.png_64 := Undef;
                        Asset.thumb := Undef |}
      /\ Asset.preview a = Undef).
Proof.
  intros Hrun. split.
  - apply icon_item_Return in Hrun as [_ ->]. simpl. intros Hfirst.
    repeat split; try done; by apply or_truthy.
  - revert Hrun. unfold icon_item, thumbnails_of, find_url.
    destruct (get item "id"); simpl; [|done].
    destruct (String_ _); simpl; [|done].
    destruct (member item "thumbnails") as [| | | | |l| |] eqn:E; simpl; try done.
    + by intros [= <-] _.
    + by intros [= <-] _.
    + intros Hrun ->. revert Hrun. simpl. by intros [= <-].
Qed.

(** X9: what a Freepik route answers is decided by the transform of the
    payload: if it returns, the route answers 200 with the assets as [data]
    and the payload's [meta] (or [{}]) as [pagination]; if it throws, the
    route answers the failure of that error. *)
Theorem freepik_response_follows_transform r query w body :
  configured Freepik ->
  (forall config, axios config = Return body) ->
  exists res w',
    search_route Freepik r query w = (Return res, w')
    /\ match freepik_transform r query body with
       | Return assets =>
           status res = 200
           /\ field res "success" = Some (Bool true)
           /\ field res "data" = Some (Arr (map Asset.to_val assets))
           /\ field res "pagination" = Some (or_val (member body "meta") (Obj []))
       | Throw error =>
           exists text, res = failure_response text error
       end.
Proof.
  intros Hkey Hbody. unfold freepik_transform, asset_of.
  destruct r; run_route; rewrite Hbody; simpl;
    rewrite ?Heqb; simpl;
    rewrite settle_own by own_tac;
    do 2 eexists; (split; [reflexivity|]).
  all: match goal with
       | |- context [transformIconResponse ?b] =>
           destruct (transformIconResponse b) eqn:Et
       | |- context [transformResourceResponse ?b] =>
           destruct (transformResourceResponse b) eqn:Et
       end; simpl; [|eauto].
  all: match goal with
       | |- context [get ?b "meta"] =>
           assert (Hnn : nullish b = false)
             by (destruct b; try done; discriminate Et);
           rewrite (get_total b "meta" Hnn)
       end; simpl; done.
Qed.

(** X10: a payload without items (no [data], or a falsy one) is not an
    error: every route of both revisions answers 200 with an empty [data]. *)
Theorem no_items_is_success p r query w body :
  configured p ->
  (forall config, axios config = Return body) ->
  nullish body = false ->
  truthy (payload_items p body) = false ->
  exists res w',
    search_route p r query w = (Return res, w')
    /\ status res = 200
    /\ field res "success" = Some (Bool true)
    /\ field res "data" = Some (Arr []).
Proof.
  intros Hkey Hbody Hnn Hitems. unfold payload_items in Hitems.
  destruct p, r; run_route; rewrite Hbody; simpl;
    rewrite settle_own by own_tac;
    unfold transformIconResponse, transformResourceResponse;
    rewrite !get_total by done; simpl;
    unfold or_val, opt_member; simpl;
    unfold opt_member in Hitems; simpl in Hitems; rewrite ?Hitems; simpl;
    do 2 eexists; (split; [reflexivity|]); done.
Qed.

(** X11: the IconScout revision passes the provider's items and pagination
    through as they are; nothing is transformed. *)
Theorem iconscout_passes_items_through r query w body :
  configured IconScout ->
  (forall config, axios config = Return body) ->
  nullish body = false ->
  let items := opt_member (member body "response") "items" in
  exists res w',
    search_route IconScout r query w = (Return res, w')
    /\ status res = 200
    /\ field res "data" = Some (or_val (opt_member items "data") (Arr []))
    /\ field res "pagination" = Some (or_val (opt_member items "pagination") (Obj [])).
Proof.
  intros Hkey Hbody Hnn items.
  destruct r; run_route; rewrite Hbody; simpl;
    rewrite settle_own by own_tac;
    rewrite get_total by done; simpl;
    do 2 eexists; (split; [reflexivity|]); done.
Qed.

(** *** The request a route sends *)

Ltac sent_request :=
  unfold sends_one; run_route;
  match goal with |- context [axios ?c] => exists c; destruct (axios c) end;
  simpl; rewrite requests_app; simpl; (split; [done|]).

(** X12: every request of both revisions is a GET restricted to free
    assets: [filters[license][freemium] = 1] (ordered by relevance) for
    Freepik, [price = 'free'] for IconScout. *)
Theorem every_request_asks_for_free_assets p r query w :
  configured p ->
  sends_one (search_route p r query) w
    (fun config =>
       method config = "GET"
       /\ match p with
          | Freepik =>
              own (params config) "filters[license][freemium]" = Some (int 1)
              /\ own (params config) "order" = Some (Str "relevance")
          | IconScout => own (params config) "price" = Some (Str "free")
          end).
Proof.
  intros Hkey. destruct p, r; sent_request; by repeat split.
Qed.

(** X13: the request goes to the endpoint of the asset kind under the
    provider's base URL ([/icons] for icons and [/resources] for the rest in
    the Freepik revision, [/search] in the IconScout one) and carries the
    credential of the environment in the provider's headers. *)
Theorem request_url_and_credential p r query w :
  configured p ->
  sends_one (search_route p r query) w
    (fun config =>
       url config = api_base p +:+ endpoint_of p r query
       /\ forall name,
            name ∈ credential_headers p ->
            own (headers config) name = Some (env (credential_name p))).
Proof.
  intros Hkey. unfold endpoint_of, asset_of.
  destruct p, r; sent_request; rewrite ?Heqb; (split; [done|]);
    intros name Hname; simpl in Hname;
    repeat (apply elem_of_cons in Hname as [->|Hname]; [done|]);
    by apply elem_of_nil in Hname.
Qed.

(** X14: the page is forwarded as received, 1 by default: no route of
    either revision clamps or checks it. *)
Theorem page_is_forwarded_as_received p r query w :
  configured p ->
  sends_one (search_route p r query) w
    (fun config =>
       own (params config) "page" = Some (destructure query "page" (int 1))).
Proof.
  intros Hkey. destruct p, r; sent_request; done.
Qed.

(** X15: the search term is [q], ["popular"] by default; only Freepik's
    [/api/3d-icons] and [/api/lottie] append to it ([" 3d"],
    [" animation motion"]), and Freepik's [/api/search] never does. *)
Theorem term_is_forwarded p r query w :
  configured p ->
  let q := destructure query "q" (Str "popular") in
  sends_one (search_route p r query) w
    (fun config =>
       match p, r with
       | IconScout, _ => own (params config) "query" = Some q
       | Freepik, api_3d_icons =>
           own (params config) "term" = Some (plus Number_toString q (Str " 3d"))
       | Freepik, api_lottie =>
           own (params config) "term" =
             Some (plus Number_toString q (Str " animation motion"))
       | Freepik, _ => own (params config) "term" = Some q
       end)
  /\ forall s suffix,
       plus Number_toString (Str s) (Str suffix) = Str (s +:+ suffix).
Proof.
  intros Hkey q. split; [|done].
  destruct p, r; sent_request; done.
Qed.

(** X16: the asset kind decides the category: IconScout gets it as
    [asset]; Freepik gets the vector filter for 3d, illustration and vector
    kinds and on [/api/lottie], the 3d style for the 3d kind only, the photo
    filter for the photo kind only, and no content filter otherwise. *)
Theorem category_follows_asset_kind p r query w :
  configured p ->
  let kind := asset_of r query in
  let kind_is s := strict_eq kind (Str s) in
  sends_one (search_route p r query) w
    (fun config =>
       match p with
       | IconScout => own (params config) "asset" = Some kind
       | Freepik =>
           own (params config) "filters[content_type][vector]" =
             (if kind_is "3d" || kind_is "illustration" || kind_is "vector"
                 || match r with api_lottie => true | _ => false end
              then Some (int 1) else None)
           /\ own (params config) "filters[vector][style]" =
                (if kind_is "3d" then Some (Str "3d") else None)
           /\ own (params config) "filters[content_type][photo]" =
                (if kind_is "photo" then Some (int 1) else None)
       end).
Proof.
  intros Hkey kind kind_is. unfold kind_is, kind, asset_of.
  destruct p, r; sent_request; try done.
  all: unfold search_filters;
    destruct (destructure query "asset" (Str "icon")) as [| | | |s| | |];
    try done; simpl in *; repeat case_bool_decide; simplify_eq; done.
Qed.

Lemma settle_text text1 text2 c :
  match settle text1 c, settle text2 c with
  | Return res, Return res' =>
      status res = status res'
      /\ forall k, k <> "error" -> field res k = field res' k
  | Throw thrown, Throw thrown' => thrown = thrown'
  | _, _ => False
  end.
Proof.
  destruct c as [res|error]; simpl; [done|].
  unfold respond_failure, res_status_json. simpl.
  destruct (_ && _); [|done]. split; [done|].
  intros k Hk. unfold field. simpl. repeat case_bool_decide; congruence.
Qed.

(** X17: [/api/search] asked for the kind of a dedicated route does what
    that route does, up to the text of [error]: always in the IconScout
    revision, and for icons (the default kind) in the Freepik one.  Both
    leave the process in the same state, and either both answer, with the
    same status and the same fields but [error], or both throw the same
    error. *)
Theorem search_matches_dedicated_route p r query w :
  r <> api_search ->
  destructure query "asset" (Str "icon") = asset_of r query ->
  p = IconScout \/ r = api_icons ->
  snd (search_route p api_search query w) = snd (search_route p r query w)
  /\ match fst (search_route p api_search query w),
          fst (search_route p r query w) with
     | Return res, Return res' =>
         status res = status res'
         /\ forall k, k <> "error" -> field res k = field res' k
     | Throw thrown, Throw thrown' => thrown = thrown'
     | _, _ => False
     end.
Proof.
  intros Hr Hasset Hp.
  destruct p, r; try done; try (by destruct Hp);
    unfold_route; simpl in Hasset; rewrite Hasset; simpl;
    (erewrite !route_shape; [|pure_tac..]); simpl;
    (split; [reflexivity|]); apply settle_text.
Qed.

Lemma message_of_cases error :
  (forall upstream,
     response error = Some upstream ->
     truthy (opt_member (response_data upstream) "message") = true ->
     message_of error = opt_member (response_data upstream) "message")
  /\ (match response error with
      | Some upstream => truthy (opt_member (response_data upstream) "message") = false
      | None => True
      end ->
      message_of error = Str (message error)).
Proof.
  unfold message_of, or_val. destruct (response error) as [upstream|]; simpl.
  - split; [intros ? [= <-] ->; done | intros ->; done].
  - split; [done | done].
Qed.

(** X18: on a failure of the provider call the [message] of the answer is
    the [message] of the provider's error body when it has one, and the
    message of the error itself otherwise, whenever the status of the
    failure is one that [res.status] accepts. *)
Theorem failure_message_comes_from_provider_first p r query w error :
  configured p ->
  (forall config, axios config = Throw error) ->
  100 <= status_or_500 error <= 999 ->
  exists res w',
    search_route p r query w = (Return res, w')
    /\ (forall upstream,
          response error = Some upstream ->
          truthy (opt_member (response_data upstream) "message") = true ->
          field res "message" = Some (opt_member (response_data upstream) "message"))
    /\ (match response error with
        | Some upstream => truthy (opt_member (response_data upstream) "message") = false
        | None => True
        end ->
        field res "message" = Some (Str (message error))).
Proof.
  intros Hkey Hfail Hstatus.
  destruct (message_of_cases error) as [Hbody Hown].
  destruct p, r; run_route; rewrite Hfail; simpl;
    rewrite respond_failure_valid by done;
    do 2 eexists; (split; [reflexivity|]);
    unfold field; simpl;
    (split; [intros upstream Hup Hm; f_equal; eauto | intros Hno; f_equal; eauto]).
Qed.

(** *** The download counter *)

Lemma lookup_assign_ne counts k v other :
  other <> k -> assign counts k v !! other = counts !! other.
Proof.
  intros Hne. unfold assign.
  destruct (counts !! k); [|case_bool_decide]; by rewrite ?lookup_insert_ne.
Qed.

Lemma lookup_assign_eq counts k v :
  k <> "__proto__" -> assign counts k v !! k = Some v.
Proof.
  intros Hk. unfold assign.
  destruct (counts !! k); [|rewrite bool_decide_eq_false_2 by done];
    by rewrite lookup_insert_eq.
Qed.

Lemma lookup_assign_same counts k v :
  assign counts k v !! k =
    match counts !! k with
    | None => if bool_decide (k = "__proto__") then None else Some v
    | Some _ => Some v
    end.
Proof.
  unfold assign. destruct (counts !! k) eqn:E; [by rewrite lookup_insert_eq|].
  case_bool_decide; [done | by rewrite lookup_insert_eq].
Qed.

Lemma ordinary_not_proto k : Object_prototype k = None -> k <> "__proto__".
Proof. by intros Hk ->. Qed.

Lemma increment_own_count assetId w (previous : Z) :
  Object_prototype assetId = None ->
  0 <= previous <= 2 ^ 53 ->
  (downloadCounts w !! assetId = None /\ previous = 0)
  \/ downloadCounts w !! assetId = Some (int previous) ->
  downloadCounts (snd (POST_api_downloads_assetId assetId w)) !! assetId =
    Some (int (previous + 1)).
Proof.
  intros Hk Hbound Hprev. rewrite counts_after_POST.
  rewrite lookup_assign_eq by by apply ordinary_not_proto.
  assert (or_val (read (downloadCounts w) assetId) (int 0) = int previous) as ->.
  { unfold read. destruct Hprev as [[-> ->] | ->]; [by rewrite Hk | apply or_count; lia]. }
  by rewrite plus_count.
Qed.

Lemma increments_own_count assetId w (previous : Z) (n : nat) :
  Object_prototype assetId = None ->
  0 <= previous ->
  previous + Z.of_nat n <= 2 ^ 53 ->
  (downloadCounts w !! assetId = None /\ previous = 0)
  \/ downloadCounts w !! assetId = Some (int previous) ->
  (downloadCounts (increments n assetId w) !! assetId = None
   /\ previous + Z.of_nat n = 0)
  \/ downloadCounts (increments n assetId w) !! assetId =
       Some (int (previous + Z.of_nat n)).
Proof.
  intros Hk Hlo Hhi Hprev. induction n as [|n IH].
  - simpl. rewrite Z.add_0_r. destruct Hprev as [[? ->]|?]; auto.
  - right. unfold increments in *. simpl.
    rewrite (increment_own_count _ _ (previous + Z.of_nat n) Hk);
      [do 2 f_equal; lia | lia | apply IH; lia].
Qed.

(** X19: [n] increments of an asset id that [Object.prototype] does not
    have add [n] to its count as long as the sum is a double: from a count
    [c], or from no count, with [c + n] at most [2^53], [GET] then answers
    [c + n], exactly. *)
Theorem n_increments_add_n assetId w (previous : Z) (n : nat) :
  Object_prototype assetId = None ->
  0 <= previous ->
  previous + Z.of_nat n <= 2 ^ 53 ->
  (downloadCounts w !! assetId = None /\ previous = 0)
  \/ downloadCounts w !! assetId = Some (int previous) ->
  exists res,
    fst (GET_api_downloads_assetId assetId (increments n assetId w)) = Return res
    /\ field res "downloads" = Some (int (previous + Z.of_nat n))
    /\ int (previous + Z.of_nat n) = Num (Fin (inject_Z (previous + Z.of_nat n))).
Proof.
  intros Hk Hlo Hhi Hprev. eexists. split; [reflexivity|]. split.
  - unfold field. simpl. f_equal.
    destruct (increments_own_count assetId w previous n Hk Hlo Hhi Hprev)
      as [[Hnone Hzero] | Hsome]; unfold read.
    + by rewrite Hnone, Hk, Hzero.
    + rewrite Hsome. apply or_count. lia.
  - unfold int. rewrite round_double_exact; [done | lia].
Qed.

(** X20: outside production every increment is followed by one write of
    [downloads.json], holding the counts with that increment; in production
    nothing is written. *)
Theorem increment_is_written_out assetId w :
  let w' := snd (POST_api_downloads_assetId assetId w) in
  events w' =
    events w ++
    (if strict_eq (env "NODE_ENV") (Str "production") then []
     else [fs_writeFileSync "downloads.json" (downloadCounts w')]).
Proof.
  unfold POST_api_downloads_assetId, bind, saveDownloadCounts.
  destruct (strict_eq (env "NODE_ENV") (Str "production")); simpl;
    by rewrite ?app_nil_r.
Qed.

(** X21: increments of two different asset ids commute: the counts end the
    same in either order. *)
Theorem increments_commute a b w :
  a <> b ->
  downloadCounts (snd (POST_api_downloads_assetId b
                         (snd (POST_api_downloads_assetId a w)))) =
  downloadCounts (snd (POST_api_downloads_assetId a
                         (snd (POST_api_downloads_assetId b w)))).
Proof.
  intros Hne. rewrite !counts_after_POST.
  rewrite !read_assign_other by done.
  set (va := plus _ (or_val (read _ a) _) _).
  set (vb := plus _ (or_val (read _ b) _) _).
  apply map_eq. intros k.
  destruct (decide (k = a)) as [->|Hka]; [|destruct (decide (k = b)) as [->|Hkb]].
  - rewrite lookup_assign_ne by done. rewrite !lookup_assign_same.
    by rewrite lookup_assign_ne.
  - rewrite (lookup_assign_ne _ a) by done. rewrite !lookup_assign_same.
    by rewrite lookup_assign_ne.
  - by rewrite !lookup_assign_ne.
Qed.

(** X22: the counter keeps holding counts: if every count is a
    non-negative integer, it is so after an increment of an asset id that
    [Object.prototype] does not have. *)
Theorem increment_keeps_counts assetId w :
  Object_prototype assetId = None ->
  holds_counts (downloadCounts w) ->
  holds_counts (downloadCounts (snd (POST_api_downloads_assetId assetId w))).
Proof.
  intros Hk Hcounts k v. destruct (decide (k = assetId)) as [->|Hne].
  - rewrite counts_after_POST, lookup_assign_eq by by apply ordinary_not_proto.
    intros [= <-]. apply increment_gives_count. unfold read.
    destruct (downloadCounts w !! assetId) as [v0|] eqn:E.
    + right. by apply (Hcounts assetId).
    + left. by rewrite Hk.
  - rewrite counts_after_POST, lookup_assign_ne by done. apply Hcounts.
Qed.

(** X23: after an increment, [GET /api/downloads] lists the asset id with
    the count the increment answered, and every other id as before. *)
Theorem listing_after_increment assetId w :
  assetId <> "__proto__" ->
  let w' := snd (POST_api_downloads_assetId assetId w) in
  exists res listing,
    fst (POST_api_downloads_assetId assetId w) = Return res
    /\ fst (GET_api_downloads w') = Return listing
    /\ listing_status listing = 200
    /\ field res "downloads" = listing_downloads listing !! assetId
    /\ forall other,
         other <> assetId ->
         listing_downloads listing !! other = downloadCounts w !! other.
Proof.
  intros Hk w'. do 2 eexists.
  split; [|split; [reflexivity|]].
  - unfold POST_api_downloads_assetId, bind, saveDownloadCounts.
    destruct (negb _); reflexivity.
  - simpl. split; [done|]. unfold w'. rewrite counts_after_POST. split.
    + unfold field. simpl. rewrite lookup_assign_eq by done.
      unfold read. by rewrite lookup_assign_eq.
    + intros other Hne. by rewrite lookup_assign_ne.
Qed.

End Server.

(** ** Checks on concrete inputs *)

Example StringToNumber_500 : StringToNumber "500" = Number_of_Z 500.
Proof. reflexivity. Qed.
Example StringToNumber_exp : StringToNumber " 1.5e2 " = Number_of_Z 150.
Proof. reflexivity. Qed.
Example StringToNumber_frac : StringToNumber ".25" = Fin (1 # 4).
Proof. reflexivity. Qed.
Example StringToNumber_hex : StringToNumber "0x1F4" = Number_of_Z 500.
Proof. reflexivity. Qed.
Example StringToNumber_word : StringToNumber "many" = NaN.
Proof. reflexivity. Qed.
Example StringToNumber_dot : StringToNumber "." = NaN.
Proof. reflexivity. Qed.
Example StringToNumber_neg : StringToNumber "-Infinity" = Infinity true.
Proof. reflexivity. Qed.
Example StringToNumber_empty : StringToNumber "" = Number_of_Z 0.
Proof. reflexivity. Qed.
Example StringToNumber_small : StringToNumber "25E-1" = Fin (5 # 2).
Proof. reflexivity. Qed.
Example StringToNumber_bin : StringToNumber "0b101" = Number_of_Z 5.
Proof. reflexivity. Qed.
Example StringToNumber_junk : StringToNumber "12px" = NaN.
Proof. reflexivity. Qed.
Example print_integer_128 : print_integer (128 # 1) = "128".
Proof. reflexivity. Qed.
Example index_name_12 : index_name 12 = "12".
Proof. reflexivity. Qed.
Example plus_array :
  plus print_integer (Arr [Str "a"; Null; int 2]) (Str " 3d") = Str "a,,2 3d".
Proof. reflexivity. Qed.
Example plus_numbers : plus print_integer (int 41) (int 1) = int 42.
Proof. reflexivity. Qed.

Example clamp_500 : min_100 print_integer (Str "500") = int 100.
Proof. reflexivity. Qed.
Example clamp_default : min_100 print_integer (int 20) = int 20.
Proof. reflexivity. Qed.
Example clamp_word : min_100 print_integer (Str "many") = Num NaN.
Proof. reflexivity. Qed.
Example clamp_array : min_100 print_integer (Arr [Str "7"]) = int 7.
Proof. reflexivity. Qed.

Example resource_sample :
  resource_item print_integer sample_resource =
    Return {| Asset.id := int 7;
              Asset.uuid := Str "7";
              Asset.name := Str "Sunrise";
              Asset.urls := {| Asset.png_128 := Str "full.jpg";
                                Asset.png_64 := Str "full.jpg";
                                Asset.thumb := Str "full.jpg" |};
              Asset.preview := Str "full.jpg" |}.
Proof. reflexivity. Qed.

Example icon_sample :
  icon_item print_integer sample_icon =
    Return {| Asset.id := int 9;
              Asset.uuid := Str "9";
              Asset.name := Str "A house";
              Asset.urls := {| Asset.png_128 := Undef;
                                Asset.png_64 := Undef;
                                Asset.thumb := Undef |};
              Asset.preview := Undef |}.
Proof. reflexivity. Qed.

Example null_item_throws :
  icon_item print_integer Null =
    Throw (new_Error "Cannot read properties of null (reading 'id')").
Proof. reflexivity. Qed.

Example increment_proto :
  fst (POST_api_downloads_assetId print_integer with_credentials "__proto__" fresh) =
    Return {| status := 200;
              json := Obj [("success", Bool true); ("downloads", Obj [])] |}.
Proof. reflexivity. Qed.

Example increment_ordinary :
  fst (POST_api_downloads_assetId print_integer with_credentials "icon-42" fresh) =
    Return {| status := 200;
              json := Obj [("success", Bool true); ("downloads", int 1)] |}.
Proof. reflexivity. Qed.

Example double_tenth :
  StringToNumber "0.1" = Fin (3602879701896397 # 36028797018963968).
Proof. by vm_compute. Qed.
Example double_sum :
  Number_add (StringToNumber "0.1") (StringToNumber "0.2") =
    StringToNumber "0.30000000000000004".
Proof. by vm_compute. Qed.
Example double_tie_down : Number_of_Z (2 ^ 53 + 1) = Number_of_Z (2 ^ 53).
Proof. by vm_compute. Qed.
Example double_tie_up : Number_of_Z (2 ^ 53 + 3) = Number_of_Z (2 ^ 53 + 4).
Proof. by vm_compute. Qed.
Example double_overflow : StringToNumber "1e400" = Infinity false.
Proof. by vm_compute. Qed.
Example double_largest :
  StringToNumber "1.7976931348623157e308" = Number_of_Z (2 ^ 1024 - 2 ^ 971).
Proof. by vm_compute. Qed.
Example double_smallest : StringToNumber "5e-324" = Fin (1 # Z.to_pos (2 ^ 1074)).
Proof. by vm_compute. Qed.
Example double_underflow : StringToNumber "2e-324" = Fin 0.
Proof. by vm_compute. Qed.
Example count_stalls :
  plus print_integer (int (2 ^ 53)) (int 1) = int (2 ^ 53).
Proof. by vm_compute. Qed.

(** [" 7 "] between a no-break space and a line separator. *)
Example StringToNumber_unicode_space :
  StringToNumber (String (ascii_of_nat 194) (String (ascii_of_nat 160) "7" +:+
                  String (ascii_of_nat 226) (String (ascii_of_nat 128)
                    (String (ascii_of_nat 168) "")))) = Number_of_Z 7.
Proof. by vm_compute. Qed.

Example unprintable_id_throws :
  resource_item print_integer unprintable_item =
    Throw (new_Error "Cannot convert object to primitive value")
  /\ icon_item print_integer unprintable_item =
       Throw (new_Error "Cannot convert object to primitive value").
Proof. split; reflexivity. Qed.

Example array_id_prints :
  String_ print_integer (Arr [int 1; Arr [Str "a"; Null]; Obj []]) =
    Return "1,a,,[object Object]".
Proof. reflexivity. Qed.

Example status_42_refused :
  exists thrown,
    respond_failure "Failed to fetch icons" odd_status = Throw thrown
    /\ response thrown = None.
Proof. by eexists. Qed.

Example status_0_is_500 :
  exists res,
    respond_failure "Failed to fetch icons"
      {| response := Some {| response_status := 0;
                             response_data := Undef;
                             response_headers := Undef |};
         message := "aborted" |} = Return res
    /\ status res = 500
    /\ field res "message" = Some (Str "aborted").
Proof. eexists. split; [reflexivity|]. by split. Qed.

(** ** Where the specification and the code part *)


(** C3 as stated fails on both transforms: the resource transform takes the
    full-resolution image although a thumbnail of 128 pixels exists, and the
    icon transform does not fall back to the full-resolution image. *)
Lemma C3_preference_differs :
  (exists a,
     resource_item print_integer sample_resource = Return a
     /\ Asset.png_128 (Asset.urls a) = Str "full.jpg"
     /\ spec_thumbnail_url 128 sample_resource = Str "small.jpg"
     /\ Asset.png_128 (Asset.urls a) <> spec_thumbnail_url 128 sample_resource)
  /\ (exists a,
        icon_item print_integer sample_icon = Return a
        /\ Asset.png_128 (Asset.urls a) = Undef
        /\ spec_thumbnail_url 128 sample_icon = Str "home.png"
        /\ Asset.png_128 (Asset.urls a) <> spec_thumbnail_url 128 sample_icon).
Proof.
  split; eexists; (split; [reflexivity|]); repeat split; vm_compute; discriminate.
Qed.


(** C6 as stated fails on the icon transform: it names the sample icon by
    its description, not by its title. *)
Lemma C6_icon_name_differs :
  exists a,
    icon_item print_integer sample_icon = Return a
    /\ Asset.name a = Str "A house"
    /\ spec_display_name sample_icon = Str "Home"
    /\ Asset.name a <> spec_display_name sample_icon.
Proof.
  eexists. split; [reflexivity|]. repeat split. vm_compute. discriminate.
Qed.

(** ** The properties at concrete inputs *)


(** Freepik's [/api/lottie] answers the sample payload with the note. *)
Lemma C2_witness :
  exists res w',
    search_route print_integer with_credentials provider_up Freepik api_lottie [] fresh
      = (Return res, w')
    /\ field res "success" = Some (Bool true)
    /\ field res "note" = Some (Str lottie_note).
Proof.
  do 2 eexists. split; [reflexivity|]. split; [reflexivity|].
  apply (C2_note_only_when_approximated print_integer with_credentials provider_up
           Freepik api_lottie [] fresh _ _ eq_refl eq_refl).
Defined.


(** Without credentials IconScout's [/api/search] answers 500 and sends
    nothing. *)
Lemma C5_witness :
  without_credentials (credential_name IconScout) = None
  /\ exists res logged,
       search_route print_integer without_credentials provider_up IconScout api_search
                    [("asset", Str "lottie")] fresh
         = (Return res, after fresh logged)
       /\ requests logged = []
       /\ status res = 500
       /\ field res "success" = Some (Bool false)
       /\ field res "data" = Some (Arr [])
       /\ field res "message" =
            Some (Str "ICONSCOUT_CLIENT_ID environment variable is not set").
Proof.
  split; [reflexivity|].
  apply (C5_missing_credential_fails_fast print_integer without_credentials provider_up
           IconScout api_search [("asset", Str "lottie")] fresh).
  reflexivity.
Defined.

(** Freepik's [/api/search?q=sun] answers the same ids before and after a
    download was counted, the provider answering the sample payload. *)
Lemma C8_witness :
  let query := [("q", Str "sun")] in
  let later :=
    snd (POST_api_downloads_assetId print_integer with_credentials "icon-1" fresh) in
  exists res1 res2,
    fst (search_route print_integer with_credentials provider_up Freepik api_search
                      query fresh) = Return res1
    /\ fst (search_route print_integer with_credentials provider_up Freepik api_search
                         query later) = Return res2
    /\ asset_ids res1 = asset_ids res2.
Proof.
  intros query later.
  destruct (C8_repeated_search_same_ids print_integer with_credentials provider_up
              Freepik api_search query fresh later) as (_ & Hanswered & _).
  apply Hanswered. intros config error Hfail. discriminate Hfail.
Defined.

(** Counting a download of [icon-1] leaves the count of [icon-2]. *)
Lemma C9_witness :
  "icon-2" <> "icon-1"
  /\ fst (GET_api_downloads_assetId "icon-2"
            (snd (POST_api_downloads_assetId print_integer with_credentials "icon-1" fresh)))
     = fst (GET_api_downloads_assetId "icon-2" fresh).
Proof.
  split; [discriminate|].
  apply (C9_increment_frame print_integer with_credentials "icon-1" "icon-2" fresh).
  discriminate.
Defined.

(** Freepik's [/api/search?q=cat&asset=lottie] searches the resources for
    [cat], unfiltered. *)
Lemma C10_witness :
  configured with_credentials Freepik
  /\ (Str "lottie" ∉ [Str "icon"; Str "3d"; Str "illustration"; Str "vector"; Str "photo"])
  /\ sends_one
       (freepik_GET_api_search print_integer with_credentials provider_up
          [("q", Str "cat"); ("asset", Str "lottie")])
       fresh
       (fun config =>
          url config = FREEPIK_API_BASE +:+ "/resources"
          /\ params config =
               [("term", Str "cat"); ("page", int 1); ("limit", int 20);
                ("order", Str "relevance"); ("filters[license][freemium]", int 1)]).
Proof.
  assert (H : Str "lottie" ∉
              [Str "icon"; Str "3d"; Str "illustration"; Str "vector"; Str "photo"]).
  { rewrite !not_elem_of_cons. repeat split; try discriminate. apply not_elem_of_nil. }
  split; [reflexivity|]. split; [exact H|].
  apply (C10_search_other_kinds print_integer with_credentials provider_up
           [("q", Str "cat"); ("asset", Str "lottie")] fresh eq_refl H).
Defined.

(** ** The further properties at concrete inputs *)

(** A provider that answers no body makes Freepik's [/api/icons] answer
    500. *)
Lemma empty_body_witness :
  configured with_credentials Freepik
  /\ nullish Null = true
  /\ exists res w',
       search_route print_integer with_credentials provider_silent Freepik api_icons
                    [] fresh = (Return res, w')
       /\ status res = 500
       /\ field res "success" = Some (Bool false)
       /\ field res "data" = Some (Arr [])
       /\ (exists text, field res "message" = Some (Str text) /\ text <> "").
Proof.
  split; [reflexivity|]. split; [reflexivity|].
  apply (empty_body_answers_500 print_integer with_credentials provider_silent
           Freepik api_icons [] fresh Null); intros; reflexivity.
Defined.

(** With [FREEPIK_API_KEY=] the lottie route answers the configuration
    error. *)
Lemma empty_credential_witness :
  empty_credentials (credential_name Freepik) = Some ""
  /\ exists res logged,
       search_route print_integer empty_credentials provider_up Freepik api_lottie
                    [] fresh = (Return res, after fresh logged)
       /\ requests logged = []
       /\ status res = 500
       /\ field res "success" = Some (Bool false)
       /\ field res "message" =
            Some (Str "FREEPIK_API_KEY environment variable is not set").
Proof.
  split; [reflexivity|].
  apply (empty_credential_is_missing print_integer empty_credentials provider_up
           Freepik api_lottie [] fresh).
  reflexivity.
Defined.

(** The sample payload, two well-formed items, gives two assets. *)
Lemma well_formed_payload_witness :
  payload_ok sample_payload = true
  /\ (exists assets,
        transformIconResponse print_integer sample_payload = Return assets
        /\ length assets = 2%nat)
  /\ (exists assets,
        transformResourceResponse print_integer sample_payload = Return assets
        /\ length assets = 2%nat).
Proof.
  split; [reflexivity|].
  apply (transforms_return_on_well_formed_payload print_integer sample_payload).
  reflexivity.
Defined.

(** The [null] of the broken payload fails both transforms. *)
Lemma null_item_witness :
  member broken_payload "data" = Arr [sample_resource; Null]
  /\ Null ∈ [sample_resource; Null]
  /\ (exists e, transformIconResponse print_integer broken_payload = Throw e)
  /\ (exists e, transformResourceResponse print_integer broken_payload = Throw e).
Proof.
  assert (Hin : Null ∈ [sample_resource; Null]).
  { apply elem_of_cons. right. apply elem_of_cons. by left. }
  split; [reflexivity|]. split; [exact Hin|].
  apply (one_null_item_fails_the_payload print_integer broken_payload
           [sample_resource; Null] Null eq_refl Hin eq_refl).
Defined.

(** The sample resource has its image as every URL. *)
Lemma resource_with_image_witness :
  nullish sample_resource = false
  /\ printable (member sample_resource "id") = true
  /\ truthy (image_url sample_resource) = true
  /\ exists a,
       resource_item print_integer sample_resource = Return a
       /\ Asset.urls a = {| Asset.png_128 := Str "full.jpg";
                            Asset.png_64 := Str "full.jpg";
                            Asset.thumb := Str "full.jpg" |}
       /\ Asset.preview a = Str "full.jpg".
Proof.
  split; [reflexivity|]. split; [reflexivity|]. split; [reflexivity|].
  apply (resource_with_image_ignores_thumbnails print_integer sample_resource);
    reflexivity.
Defined.

(** The icon with two thumbnails has all its URLs. *)
Lemma icon_urls_witness :
  exists a,
    icon_item print_integer thumbnailed_icon = Return a
    /\ truthy (first_thumbnail_url thumbnailed_icon) = true
    /\ truthy (Asset.png_128 (Asset.urls a)) = true
    /\ truthy (Asset.png_64 (Asset.urls a)) = true
    /\ truthy (Asset.thumb (Asset.urls a)) = true
    /\ truthy (Asset.preview a) = true.
Proof.
  eexists. split; [reflexivity|]. split; [reflexivity|].
  destruct (icon_urls_follow_first_thumbnail print_integer thumbnailed_icon _ eq_refl)
    as [Hfirst _].
  exact (Hfirst eq_refl).
Defined.

(** Freepik's [/api/illustrations] answers the sample payload with its two
    assets and its [meta]. *)
Lemma freepik_response_witness :
  configured with_credentials Freepik
  /\ exists res w',
       search_route print_integer with_credentials provider_up Freepik
                    api_illustrations [] fresh = (Return res, w')
       /\ match freepik_transform print_integer api_illustrations [] sample_payload with
          | Return assets =>
              status res = 200
              /\ field res "success" = Some (Bool true)
              /\ field res "data" = Some (Arr (map Asset.to_val assets))
              /\ field res "pagination" =
                   Some (or_val (member sample_payload "meta") (Obj []))
          | Throw error => exists text, res = failure_response text error
          end.
Proof.
  split; [reflexivity|].
  apply (freepik_response_follows_transform print_integer with_credentials provider_up
           api_illustrations [] fresh sample_payload); intros; reflexivity.
Defined.

(** An empty object from the provider is an empty, successful result. *)
Lemma no_items_witness :
  configured with_credentials IconScout
  /\ nullish (Obj []) = false
  /\ truthy (payload_items IconScout (Obj [])) = false
  /\ exists res w',
       search_route print_integer with_credentials provider_empty IconScout api_lottie
                    [] fresh = (Return res, w')
       /\ status res = 200
       /\ field res "success" = Some (Bool true)
       /\ field res "data" = Some (Arr []).
Proof.
  split; [reflexivity|]. split; [reflexivity|]. split; [reflexivity|].
  apply (no_items_is_success print_integer with_credentials provider_empty
           IconScout api_lottie [] fresh (Obj [])); intros; reflexivity.
Defined.

(** IconScout's items reach the front end as the provider sent them. *)
Lemma iconscout_passthrough_witness :
  configured with_credentials IconScout
  /\ nullish iconscout_payload = false
  /\ exists res w',
       search_route print_integer with_credentials provider_iconscout IconScout
                    api_icons [] fresh = (Return res, w')
       /\ status res = 200
       /\ field res "data" = Some (Arr [Obj [("id", int 11)]; Obj [("id", int 12)]])
       /\ field res "pagination" = Some (Obj [("current_page", int 1)]).
Proof.
  split; [reflexivity|]. split; [reflexivity|].
  apply (iconscout_passes_items_through print_integer with_credentials
           provider_iconscout api_icons [] fresh iconscout_payload);
    intros; reflexivity.
Defined.

(** IconScout's [/api/3d-icons] asks for free assets. *)
Lemma free_assets_witness :
  configured with_credentials IconScout
  /\ sends_one
       (search_route print_integer with_credentials provider_up IconScout api_3d_icons [])
       fresh
       (fun config =>
          method config = "GET" /\ own (params config) "price" = Some (Str "free")).
Proof.
  split; [reflexivity|].
  apply (every_request_asks_for_free_assets print_integer with_credentials provider_up
           IconScout api_3d_icons [] fresh).
  reflexivity.
Defined.

(** Freepik's [/api/search?asset=photo] calls [/resources] with the key. *)
Lemma url_and_credential_witness :
  configured with_credentials Freepik
  /\ sends_one
       (search_route print_integer with_credentials provider_up Freepik api_search
                     [("asset", Str "photo")])
       fresh
       (fun config =>
          url config = "https://api.freepik.com/v1/resources"
          /\ forall name,
               name ∈ ["x-freepik-api-key"] ->
               own (headers config) name = Some (Str "secret")).
Proof.
  split; [reflexivity|].
  apply (request_url_and_credential print_integer with_credentials provider_up
           Freepik api_search [("asset", Str "photo")] fresh).
  reflexivity.
Defined.

(** [page=-3] reaches Freepik as it is. *)
Lemma page_witness :
  configured with_credentials Freepik
  /\ sends_one
       (search_route print_integer with_credentials provider_up Freepik api_icons
                     [("page", Str "-3")])
       fresh
       (fun config => own (params config) "page" = Some (Str "-3")).
Proof.
  split; [reflexivity|].
  apply (page_is_forwarded_as_received print_integer with_credentials provider_up
           Freepik api_icons [("page", Str "-3")] fresh).
  reflexivity.
Defined.

(** Freepik's [/api/3d-icons?q=cat] searches for ["cat 3d"]. *)
Lemma term_witness :
  configured with_credentials Freepik
  /\ sends_one
       (search_route print_integer with_credentials provider_up Freepik api_3d_icons
                     [("q", Str "cat")])
       fresh
       (fun config => own (params config) "term" = Some (Str "cat 3d")).
Proof.
  split; [reflexivity|].
  apply (term_is_forwarded print_integer with_credentials provider_up
           Freepik api_3d_icons [("q", Str "cat")] fresh).
  reflexivity.
Defined.

(** Freepik's [/api/search?asset=vector] filters on vectors only. *)
Lemma category_witness :
  configured with_credentials Freepik
  /\ sends_one
       (search_route print_integer with_credentials provider_up Freepik api_search
                     [("asset", Str "vector")])
       fresh
       (fun config =>
          own (params config) "filters[content_type][vector]" = Some (int 1)
          /\ own (params config) "filters[vector][style]" = None
          /\ own (params config) "filters[content_type][photo]" = None).
Proof.
  split; [reflexivity|].
  apply (category_follows_asset_kind print_integer with_credentials provider_up
           Freepik api_search [("asset", Str "vector")] fresh).
  reflexivity.
Defined.

(** IconScout's [/api/search?asset=lottie] is its [/api/lottie]. *)
Lemma dedicated_route_witness :
  api_lottie <> api_search
  /\ destructure [("asset", Str "lottie")] "asset" (Str "icon") =
       asset_of api_lottie [("asset", Str "lottie")]
  /\ exists res res',
       fst (search_route print_integer with_credentials provider_iconscout IconScout
                         api_search [("asset", Str "lottie")] fresh) = Return res
       /\ fst (search_route print_integer with_credentials provider_iconscout
                            IconScout api_lottie [("asset", Str "lottie")] fresh)
            = Return res'
       /\ status res = status res'
       /\ forall k, k <> "error" -> field res k = field res' k.
Proof.
  split; [discriminate|]. split; [reflexivity|].
  assert (Hr : api_lottie <> api_search) by discriminate.
  destruct (search_matches_dedicated_route print_integer with_credentials
              provider_iconscout IconScout api_lottie [("asset", Str "lottie")] fresh
              Hr eq_refl (or_introl eq_refl)) as [_ Hsame].
  do 2 eexists. split; [reflexivity|]. split; [reflexivity|]. exact Hsame.
Defined.

(** The provider's "Not found" is the message of the answer. *)
Lemma failure_message_witness :
  configured with_credentials Freepik
  /\ 100 <= status_or_500 not_found <= 999
  /\ exists res w',
       search_route print_integer with_credentials provider_down Freepik api_icons
                    [] fresh = (Return res, w')
       /\ field res "message" = Some (Str "Not found").
Proof.
  assert (Hstatus : 100 <= status_or_500 not_found <= 999)
    by (vm_compute; split; discriminate).
  split; [reflexivity|]. split; [exact Hstatus|].
  destruct (failure_message_comes_from_provider_first print_integer with_credentials
              provider_down Freepik api_icons [] fresh not_found eq_refl
              (fun _ => eq_refl) Hstatus)
    as (res & w' & Hrun & Hbody & _).
  exists res, w'. split; [exact Hrun|].
  exact (Hbody _ eq_refl eq_refl).
Defined.

(** Three downloads of a new icon count three. *)
Lemma n_increments_witness :
  Object_prototype "icon-1" = None
  /\ 0 + Z.of_nat 3 <= 2 ^ 53
  /\ exists res,
       fst (GET_api_downloads_assetId "icon-1"
              (increments print_integer with_credentials 3 "icon-1" fresh)) = Return res
       /\ field res "downloads" = Some (int 3)
       /\ int 3 = Num (Fin 3).
Proof.
  assert (Hbound : 0 + Z.of_nat 3 <= 2 ^ 53) by (simpl; lia).
  split; [reflexivity|]. split; [exact Hbound|].
  apply (n_increments_add_n print_integer with_credentials "icon-1" fresh 0 3).
  - reflexivity.
  - lia.
  - exact Hbound.
  - left. split; reflexivity.
Defined.

(** Downloads of two icons count the same in either order. *)
Lemma commute_witness :
  "icon-1" <> "icon-2"
  /\ downloadCounts
       (snd (POST_api_downloads_assetId print_integer with_credentials "icon-2"
               (snd (POST_api_downloads_assetId print_integer with_credentials
                       "icon-1" fresh)))) =
     downloadCounts
       (snd (POST_api_downloads_assetId print_integer with_credentials "icon-1"
               (snd (POST_api_downloads_assetId print_integer with_credentials
                       "icon-2" fresh)))).
Proof.
  split; [discriminate|].
  apply (increments_commute print_integer with_credentials "icon-1" "icon-2" fresh).
  discriminate.
Defined.

(** A fresh counter holds counts, and still does after a download. *)
Lemma keeps_counts_witness :
  Object_prototype "icon-1" = None
  /\ holds_counts (downloadCounts fresh)
  /\ holds_counts
       (downloadCounts
          (snd (POST_api_downloads_assetId print_integer with_credentials
                  "icon-1" fresh))).
Proof.
  assert (Hfresh : holds_counts (downloadCounts fresh)).
  { intros k v Hk. simpl in Hk. by rewrite lookup_empty in Hk. }
  split; [reflexivity|]. split; [exact Hfresh|].
  apply (increment_keeps_counts print_integer with_credentials "icon-1" fresh
           eq_refl Hfresh).
Defined.

(** After the first download of an icon the listing shows it once. *)
Lemma listing_witness :
  "icon-1" <> "__proto__"
  /\ exists res listing,
       fst (POST_api_downloads_assetId print_integer with_credentials "icon-1" fresh)
         = Return res
       /\ fst (GET_api_downloads
                 (snd (POST_api_downloads_assetId print_integer with_credentials
                         "icon-1" fresh))) = Return listing
       /\ listing_status listing = 200
       /\ field res "downloads" = listing_downloads listing !! "icon-1"
       /\ forall other,
            other <> "icon-1" ->
            listing_downloads listing !! other = downloadCounts fresh !! other.
Proof.
  split; [discriminate|].
  apply (listing_after_increment print_integer with_credentials "icon-1" fresh).
  discriminate.
Defined.
